(** * cluster.py: column cleaning, transform-mode resolution and the
      FastPG invocation, embedded and verified.

    The development follows [src/cluster.py].  Python [str] values are
    [string]s whose characters stand for the code points 0..255; text files
    are given by their decoded contents (newlines already translated to
    ["\n"], as [open(file, 'r')] does).  Exceptions are values of [exn];
    the operating system, pandas' CSV reader and the child process are an
    explicit environment. *)

From Stdlib Require Import String Ascii List Bool Arith ZArith Lia.
From Stdlib Require Import Decimal DecimalString Permutation.
Import ListNotations.

Open Scope string_scope.
Open Scope list_scope.

(* ------------------------------------------------------------------ *)
(** ** Python [str] methods used by the script *)

Module PyStr.

Definition newline : ascii := Ascii.ascii_of_nat 10.

(** [str.isspace] on one character, for the code points 0..255:
    TAB, LF, VT, FF, CR, FS, GS, RS, US, space, NEL and NBSP. *)
Definition isspace (c : ascii) : bool :=
  let n := Ascii.nat_of_ascii c in
  (Nat.leb 9 n && Nat.leb n 13) || (Nat.leb 28 n && Nat.leb n 32)
  || Nat.eqb n 133 || Nat.eqb n 160.

(** [c.isdigit()] restricted to the decimal digits that [\d] accepts
    among the code points 0..255. *)
Definition isdigit (c : ascii) : bool :=
  let n := Ascii.nat_of_ascii c in Nat.leb 48 n && Nat.leb n 57.

Fixpoint lstrip (s : string) : string :=
  match s with
  | EmptyString => EmptyString
  | String c s' => if isspace c then lstrip s' else s
  end.

Fixpoint rstrip (s : string) : string :=
  match s with
  | EmptyString => EmptyString
  | String c s' =>
      match rstrip s' with
      | EmptyString => if isspace c then EmptyString else String c EmptyString
      | r => String c r
      end
  end.

(** [s.strip()] *)
Definition strip (s : string) : string := rstrip (lstrip s).

(** [sub in s] *)
Fixpoint contains (sub s : string) : bool :=
  String.prefix sub s ||
  match s with
  | EmptyString => false
  | String _ s' => contains sub s'
  end.

(** [s.split(sep)] for a one-character separator: never empty. *)
Fixpoint split (sep : ascii) (s : string) : list string :=
  match s with
  | EmptyString => [EmptyString]
  | String c s' =>
      if Ascii.eqb c sep then EmptyString :: split sep s'
      else match split sep s' with
           | h :: t => String c h :: t
           | [] => [String c EmptyString]
           end
  end.

(** [sep.join(l)] *)
Fixpoint join (sep : string) (l : list string) : string :=
  match l with
  | [] => EmptyString
  | [x] => x
  | x :: rest => (x ++ sep ++ join sep rest)%string
  end.

(** [f.readlines()] on the decoded contents: every line keeps its
    terminating newline; a last line without one is returned too. *)
Fixpoint readlines (s : string) : list string :=
  match s with
  | EmptyString => []
  | String c s' =>
      if Ascii.eqb c newline then String c EmptyString :: readlines s'
      else match readlines s' with
           | h :: t => String c h :: t
           | [] => [String c EmptyString]
           end
  end.

(** [str(n)] for an [int] *)
Definition str_int (n : Z) : string := NilZero.string_of_int (Z.to_int n).

(** [str(b)] for a [bool] *)
Definition str_bool (b : bool) : string := if b then "True" else "False".

(** [x in l] for a list of strings *)
Definition mem (x : string) (l : list string) : bool :=
  existsb (String.eqb x) l.

End PyStr.

(* ------------------------------------------------------------------ *)
(** ** The fragment of [re] that the exclusion patterns use *)

Module Re.

Inductive regex : Type :=
| Void : regex                      (* matches nothing *)
| Eps : regex                       (* the empty word *)
| Lit : ascii -> regex              (* an ordinary character *)
| Dot : regex                       (* [.]: anything but a newline *)
| Digit : regex                     (* [\d] *)
| Cat : regex -> regex -> regex
| Alt : regex -> regex -> regex
| Star : regex -> regex.

(** [r{n}] *)
Fixpoint repeat_re (n : nat) (r : regex) : regex :=
  match n with
  | O => Eps
  | S n' => Cat r (repeat_re n' r)
  end.

(** Parser state: reading atoms, just after a backslash, or inside a
    [{n}] quantifier (with the digits read so far). *)
Inductive pstate : Type :=
| Normal : pstate
| Escape : pstate
| Brace : option nat -> pstate.

(** An item of the pattern: an atom, with a flag telling whether it
    already carries a quantifier (Python refuses a second one). *)
Definition item : Type := (regex * bool)%type.

Definition is_meta (c : ascii) : bool :=
  existsb (Ascii.eqb c)
    (list_ascii_of_string "()[]|+?^$}").

Definition digit_val (c : ascii) : nat := Ascii.nat_of_ascii c - 48.

(** [parse s st acc]: the items of the pattern, last one first.
    [None] stands for a pattern outside the fragment (or one that
    [re.compile] refuses). *)
Fixpoint parse (s : string) (st : pstate) (acc : list item)
  : option (list item) :=
  match s with
  | EmptyString =>
      match st with
      | Normal => Some acc
      | _ => None
      end
  | String c s' =>
      match st with
      | Normal =>
          if Ascii.eqb c "\" then parse s' Escape acc
          else if Ascii.eqb c "." then parse s' Normal ((Dot, false) :: acc)
          else if Ascii.eqb c "*" then
            match acc with
            | (a, false) :: acc' => parse s' Normal ((Star a, true) :: acc')
            | _ => None
            end
          else if Ascii.eqb c "{" then
            match acc with
            | (_, false) :: _ => parse s' (Brace None) acc
            | _ => None
            end
          else if is_meta c then None
          else parse s' Normal ((Lit c, false) :: acc)
      | Escape =>
          if Ascii.eqb c "d" then parse s' Normal ((Digit, false) :: acc)
          else None
      | Brace n =>
          if PyStr.isdigit c then
            parse s' (Brace (Some (10 * match n with Some k => k | None => 0 end
                                   + digit_val c))) acc
          else if Ascii.eqb c "}" then
            match n, acc with
            | Some k, (a, false) :: acc' =>
                parse s' Normal ((repeat_re k a, true) :: acc')
            | _, _ => None
            end
          else None
      end
  end.

(** The concatenation of the items, given last one first. *)
Fixpoint seq_of (acc : list item) (tail : regex) : regex :=
  match acc with
  | [] => tail
  | (a, _) :: acc' => seq_of acc' (Cat a tail)
  end.

(** [re.compile(pattern)] *)
Definition compile (pattern : string) : option regex :=
  match parse pattern Normal [] with
  | Some acc => Some (seq_of acc Eps)
  | None => None
  end.

Fixpoint nullable (r : regex) : bool :=
  match r with
  | Void => false
  | Eps => true
  | Lit _ => false
  | Dot => false
  | Digit => false
  | Cat r1 r2 => nullable r1 && nullable r2
  | Alt r1 r2 => nullable r1 || nullable r2
  | Star _ => true
  end.

(** Brzozowski derivative. *)
Fixpoint deriv (c : ascii) (r : regex) : regex :=
  match r with
  | Void => Void
  | Eps => Void
  | Lit a => if Ascii.eqb a c then Eps else Void
  | Dot => if Ascii.eqb c PyStr.newline then Void else Eps
  | Digit => if PyStr.isdigit c then Eps else Void
  | Cat r1 r2 =>
      if nullable r1 then Alt (Cat (deriv c r1) r2) (deriv c r2)
      else Cat (deriv c r1) r2
  | Alt r1 r2 => Alt (deriv c r1) (deriv c r2)
  | Star r1 => Cat (deriv c r1) (Star r1)
  end.

(** [r.match(s) is not None]: some prefix of [s] is matched by [r]. *)
Fixpoint match_ (r : regex) (s : string) : bool :=
  nullable r ||
  match s with
  | EmptyString => false
  | String c s' => match_ (deriv c r) s'
  end.

(** The words a regular expression denotes. *)
Inductive matches : regex -> string -> Prop :=
| MEps : matches Eps EmptyString
| MLit : forall c, matches (Lit c) (String c EmptyString)
| MDot : forall c, c <> PyStr.newline -> matches Dot (String c EmptyString)
| MDigit : forall c, PyStr.isdigit c = true ->
                     matches Digit (String c EmptyString)
| MCat : forall r1 r2 u v,
    matches r1 u -> matches r2 v -> matches (Cat r1 r2) (u ++ v)%string
| MAltL : forall r1 r2 u, matches r1 u -> matches (Alt r1 r2) u
| MAltR : forall r1 r2 u, matches r2 u -> matches (Alt r1 r2) u
| MStarNil : forall r, matches (Star r) EmptyString
| MStarCons : forall r u v,
    matches r u -> matches (Star r) v -> matches (Star r) (u ++ v)%string.

(** A match anchored at the start of [s], the rest of [s] being free. *)
Definition matches_at_start (r : regex) (s : string) : Prop :=
  exists u v, s = (u ++ v)%string /\ matches r u.

End Re.

(* ------------------------------------------------------------------ *)
(** ** Exceptions, environment, state and the monad of the script *)

(** The Python exceptions the modelled code can raise. *)
Inductive exn : Type :=
| OSError : string -> exn                 (* [open], [to_csv], exec *)
| KeyError : list string -> exn           (* pandas: labels not found *)
| ValueError : string -> exn              (* [list.index] *)
| IndexError : exn                        (* [list.pop] *)
| UnboundLocalError : string -> exn       (* local read before assignment *)
| ReError : string -> exn                 (* [re.compile] *)
| CalledProcessError : Z -> string -> exn (* non-zero exit status *)
| ReadCsvError : string -> exn.           (* whatever [pd.read_csv] raises *)

Inductive outcome (A : Type) : Type :=
| Ok : A -> outcome A
| Raise : exn -> outcome A.
Arguments Ok {A} _.
Arguments Raise {A} _.

(** A data frame: its columns from left to right, each with its label
    and its cells. *)
Definition DataFrame : Type := list (string * list string).

(** How a child process ends. *)
Inductive proc_outcome : Type :=
| ExecFailed : proc_outcome               (* program not found or not executable *)
| Exited : Z -> string -> proc_outcome.   (* exit status and captured stdout *)

(** What the script sees of the outside world. *)
Record env : Type := {
  open_read : string -> option string;    (* decoded contents, [None]: [open] fails *)
  read_csv : string -> outcome DataFrame; (* [pd.read_csv] *)
  can_write : string -> bool;             (* [to_csv] can create the file *)
  write_error : string -> string;         (* what the [OSError] of a failed write says *)
  run_process : list string -> proc_outcome;
  script_realpath : string                (* [os.path.realpath(__file__)] *)
}.

(** The values of [parseArgs()]. *)
Record Args : Type := {
  input : string;
  output_arg : option string;
  markers_arg : option string;
  verbose : bool;
  neighbors : Z;
  num_threads : Z;
  method : bool;
  config : option string;
  force_transform : bool;
  no_transform : bool
}.

(** The module-level names [__main__] assigns before it calls [clean] and
    [runFastPG] (the list [markers], which [clean] updates in place, is
    in the state). *)
Record globals : Type := {
  args : Args;
  output : string;
  transform : string;
  clean_data_file : string;
  clusters_file : string;
  cells_file : string
}.

Record state : Type := {
  markers : list string;                  (* the global list object *)
  stdout : list string;                   (* lines printed, oldest first *)
  files : list (string * DataFrame)       (* CSV files written, newest first *)
}.

Definition M (A : Type) : Type := state -> outcome A * state.

Definition ret {A} (a : A) : M A := fun st => (Ok a, st).
Definition raise {A} (e : exn) : M A := fun st => (Raise e, st).
Definition bind {A B} (m : M A) (k : A -> M B) : M B :=
  fun st => match m st with
            | (Ok a, st') => k a st'
            | (Raise e, st') => (Raise e, st')
            end.
Definition lift {A} (o : outcome A) : M A := fun st => (o, st).

Notation "x <- m ;; k" := (bind m (fun x => k))
  (at level 61, m at next level, right associativity).
Notation "m ;;; k" := (bind m (fun _ => k))
  (at level 61, right associativity).

Definition print (s : string) : M unit :=
  fun st => (Ok tt, {| markers := markers st;
                       stdout := stdout st ++ [s];
                       files := files st |}).

Definition when (b : bool) (m : M unit) : M unit := if b then m else ret tt.

Definition get_global_markers : M (list string) := fun st => (Ok (markers st), st).
Definition set_global_markers (l : list string) : M unit :=
  fun st => (Ok tt, {| markers := l; stdout := stdout st; files := files st |}).

(* ------------------------------------------------------------------ *)
(** ** Python lists and the pandas operations used by [clean] *)

Module PyList.

(** [l.index(x)] *)
Fixpoint index (x : string) (l : list string) : outcome nat :=
  match l with
  | [] => Raise (ValueError x)
  | y :: rest =>
      if String.eqb y x then Ok O
      else match index x rest with
           | Ok i => Ok (S i)
           | Raise e => Raise e
           end
  end.

(** [l.pop(i)] for [i >= 0]: the element and what is left. *)
Fixpoint pop (i : nat) (l : list string) : outcome (string * list string) :=
  match l, i with
  | [], _ => Raise IndexError
  | y :: rest, O => Ok (y, rest)
  | y :: rest, S j =>
      match pop j rest with
      | Ok (x, rest') => Ok (x, y :: rest')
      | Raise e => Raise e
      end
  end.

(** [l.insert(i, x)] for [i >= 0] (past the end: appended). *)
Definition insert (i : nat) (x : string) (l : list string) : list string :=
  firstn i l ++ x :: skipn i l.

End PyList.

Module Pandas.

(** [data.columns] *)
Definition columns (data : DataFrame) : list string := map fst data.

(** The labels of [keys] that are no column of [data]. *)
Definition missing (data : DataFrame) (keys : list string) : list string :=
  filter (fun k => negb (PyStr.mem k (columns data))) keys.

(** [data[keys]] with a list of labels: the columns in the order of
    [keys]; [KeyError] when a label is not found. *)
Definition getitem (data : DataFrame) (keys : list string)
  : outcome DataFrame :=
  match missing data keys with
  | [] => Ok (flat_map
                (fun k => filter (fun col => String.eqb (fst col) k) data)
                keys)
  | m => Raise (KeyError m)
  end.

(** [data.drop(columns=labels, axis=1)]: the columns whose label is
    listed are removed; [KeyError] when a label is not found. *)
Definition drop (data : DataFrame) (labels : list string)
  : outcome DataFrame :=
  match missing data labels with
  | [] => Ok (filter (fun col => negb (PyStr.mem (fst col) labels)) data)
  | m => Raise (KeyError m)
  end.

End Pandas.

(** [data.to_csv(path, index=False)]: when the file cannot be created,
    the [OSError] says what the system reports for that path (a missing
    directory, a refused permission). *)
Definition to_csv (e : env) (data : DataFrame) (path : string) : M unit :=
  fun st =>
    if can_write e path then
      (Ok tt, {| markers := markers st;
                 stdout := stdout st;
                 files := (path, data) :: files st |})
    else (Raise (OSError (write_error e path)), st).

(** [open(file, 'r')] followed by reading the whole file. *)
Definition open_file (e : env) (file : string) : M string :=
  match open_read e file with
  | Some contents => ret contents
  | None => raise (OSError file)
  end.

(** [subprocess.check_output(command, universal_newlines=True)] *)
Definition check_output (e : env) (command : list string) : M string :=
  match run_process e command with
  | ExecFailed => raise (OSError (hd "" command))
  | Exited code out =>
      if Z.eqb code 0 then ret out else raise (CalledProcessError code out)
  end.

(* ------------------------------------------------------------------ *)
(** ** The script *)

Definition CELL_ID : string := "CellID".

(** The default list of features to exclude from clustering. *)
Definition FEATURES_TO_REMOVE : list string :=
  [ "X_centroid"; "Y_centroid";
    "column_centroid"; "row_centroid";
    "Area"; "MajorAxisLength";
    "MinorAxisLength"; "Eccentricity";
    "Solidity"; "Extent"; "Orientation";
    "DNA.*"; "Hoechst.*"; "DAP.*";
    "AF.*";
    "A\d{3}.*" ].

(** Truth value of an optional string ([if args.markers:]). *)
Definition truthy (o : option string) : bool :=
  match o with
  | Some s => negb (String.eqb s "")
  | None => false
  end.

(** [get_path()] *)
Definition get_path (e : env) : string :=
  let full_path := script_realpath e in
  let path_list := removelast (PyStr.split "/" full_path) in
  PyStr.join "/" path_list.

(** [get_markers(markers_file)] *)
Definition get_markers (e : env) (markers_file : string) : M (list string) :=
  contents <- open_file e markers_file ;;
  ret (map PyStr.strip (PyStr.readlines contents)).

(** Lines 99-102 of [clean]: the identity column is put first in the
    global list [markers]. *)
Definition normalize_markers : M unit :=
  ms <- get_global_markers ;;
  if negb (PyStr.mem CELL_ID ms) then
    set_global_markers (PyList.insert 0 CELL_ID ms)
  else
    i <- lift (PyList.index CELL_ID ms) ;;
    if negb (Nat.eqb i 0) then
      j <- lift (PyList.index CELL_ID ms) ;;
      p <- lift (PyList.pop j ms) ;;
      set_global_markers (PyList.insert 0 (fst p) (snd p))
    else ret tt.

(** Lines 107-111 of [clean]: the columns matched by some pattern, pattern
    after pattern. *)
Fixpoint collect_columns (features : list string) (cols : list string)
  (col_to_remove : list string) : outcome (list string) :=
  match features with
  | [] => Ok col_to_remove
  | feature :: rest =>
      match Re.compile feature with
      | Some r =>
          collect_columns rest cols
            (col_to_remove ++ filter (Re.match_ r) cols)
      | None => Raise (ReError feature)
      end
  end.

(** [clean(input_file)] *)
Definition clean (e : env) (g : globals) (input_file : string) : M unit :=
  when (verbose (args g)) (print "Cleaning data...") ;;;
  data <- lift (read_csv e input_file) ;;
  data' <- (if truthy (markers_arg (args g)) then
              normalize_markers ;;;
              ms <- get_global_markers ;;
              lift (Pandas.getitem data ms)
            else
              let cols := Pandas.columns data in
              col_to_remove <- lift (collect_columns FEATURES_TO_REMOVE cols []) ;;
              lift (Pandas.drop data col_to_remove)) ;;
  to_csv e data' (output g ++ "/" ++ clean_data_file g)%string ;;;
  when (verbose (args g))
       (print ("Done. Cleaned data is in " ++ output g ++ "/"
               ++ clean_data_file g ++ ".csv.")%string).

(** Lines 130-137 of [runFastPG]: the command of the child process. *)
Definition command (e : env) (g : globals) : list string :=
  let path := get_path e in
  let r_script := ["Rscript"; (path ++ "/runFastPG.r")%string] in
  let r_args := [ (output g ++ "/" ++ clean_data_file g)%string;
                  PyStr.str_int (neighbors (args g));
                  PyStr.str_int (num_threads (args g));
                  output g; cells_file g; clusters_file g;
                  PyStr.str_bool (method (args g)); transform g ] in
  (r_script ++ r_args)%list.

(** [runFastPG()]: the captured output is printed when verbose, and
    nothing is returned. *)
Definition runFastPG (e : env) (g : globals) : M unit :=
  when (verbose (args g)) (print "Running R script...") ;;;
  modularity <- check_output e (command e g) ;;
  when (verbose (args g))
       (print ("Modularity: " ++ modularity)%string ;;; print "Done.").

(** The loop of [readConfig]: [transform] is assigned at every line that
    contains the key. *)
Fixpoint readConfig_loop (lines : list string) (transform : option string)
  : option string :=
  match lines with
  | [] => transform
  | l :: rest =>
      if PyStr.contains "transform:" (PyStr.strip l) then
        readConfig_loop rest (Some (PyStr.strip (last (PyStr.split ":" l) "")))
      else readConfig_loop rest transform
  end.

(** [readConfig(file)] *)
Definition readConfig (e : env) (file : string) : M string :=
  contents <- open_file e file ;;
  let lines := PyStr.readlines contents in
  match readConfig_loop lines None with
  | Some transform => ret transform
  | None => raise (UnboundLocalError "transform")
  end.

(** Lines 181-188 of [__main__]: the log transform parameter. *)
Definition assess_transform (e : env) (a : Args) : M string :=
  if force_transform a && negb (no_transform a) then ret "true"
  else if negb (force_transform a) && no_transform a then ret "false"
  else match config a with
       | Some file => readConfig e file
       | None => ret "auto"
       end.

(* ------------------------------------------------------------------ *)
(** ** Vocabulary of the statements *)

(** [re.compile(pattern).match(name) is not None] *)
Definition re_match (pattern name : string) : bool :=
  match Re.compile pattern with
  | Some r => Re.match_ r name
  | None => false
  end.

(** The pattern, anchored at the start of the name, matches: some prefix
    of the name is a word of the pattern. *)
Definition matches_start (pattern name : string) : Prop :=
  exists r, Re.compile pattern = Some r /\ Re.matches_at_start r name.

(** A column label that some default pattern matches at its start. *)
Definition excluded (name : string) : bool :=
  existsb (fun pattern => re_match pattern name) FEATURES_TO_REMOVE.

(** The pattern of the secondary antibody channels (the last one of
    [FEATURES_TO_REMOVE]). *)
Definition antibody_pattern : string := last FEATURES_TO_REMOVE "".

(** Three digits in a row: what [\d{3}] compiles to. *)
Definition digit3 : Re.regex :=
  Re.Cat Re.Digit (Re.Cat Re.Digit (Re.Cat Re.Digit Re.Eps)).

(** The list without the first occurrence of [x]. *)
Fixpoint remove_first (x : string) (l : list string) : list string :=
  match l with
  | [] => []
  | y :: rest => if String.eqb y x then rest else y :: remove_first x rest
  end.

(** The marker list with the identity column first. *)
Definition normalized (ms : list string) : list string :=
  CELL_ID :: remove_first CELL_ID ms.

(** The path of the cleaned table. *)
Definition clean_path (g : globals) : string :=
  (output g ++ "/" ++ clean_data_file g)%string.

(** The state with another marker list, with more lines printed, with one
    more file written. *)
Definition with_markers (ms : list string) (st : state) : state :=
  {| markers := ms; stdout := stdout st; files := files st |}.
Definition with_printed (lines : list string) (st : state) : state :=
  {| markers := markers st; stdout := stdout st ++ lines; files := files st |}.
Definition with_file (path : string) (data : DataFrame) (st : state) : state :=
  {| markers := markers st; stdout := stdout st;
     files := (path, data) :: files st |}.

(** What [clean] prints before and after its work. *)
Definition clean_banner (g : globals) : list string :=
  if verbose (args g) then ["Cleaning data..."] else [].
Definition clean_done (g : globals) : list string :=
  if verbose (args g)
  then [("Done. Cleaned data is in " ++ output g ++ "/"
         ++ clean_data_file g ++ ".csv.")%string]
  else [].

(** No character of the string is white space. *)
Definition solid (s : string) : bool :=
  forallb (fun c => negb (PyStr.isspace c)) (list_ascii_of_string s).

(** The columns of [data] that carry the label [k]. *)
Definition labelled (k : string) (data : DataFrame) : DataFrame :=
  filter (fun col => String.eqb (fst col) k) data.

(** What [runFastPG] prints before it starts the child process. *)
Definition fastpg_banner (g : globals) : list string :=
  if verbose (args g) then ["Running R script..."] else [].

(** A line of the config file holds the key. *)
Definition has_key (l : string) : bool := PyStr.contains "transform:" l.

(** The value [readConfig] takes from a line: what follows its last
    colon, stripped. *)
Definition value_of (l : string) : string :=
  PyStr.strip (last (PyStr.split ":" l) "").

(** What follows the first occurrence of [sub] in [s]. *)
Fixpoint after (sub s : string) : string :=
  if String.prefix sub s
  then String.substring (String.length sub) (String.length s) s
  else match s with
       | EmptyString => EmptyString
       | String _ s' => after sub s'
       end.

(** The reading of the specification: the value that follows the key on
    the first line that holds it, stripped. *)
Definition spec_first_value (lines : list string) : option string :=
  match find has_key lines with
  | Some l => Some (PyStr.strip (after "transform:" l))
  | None => None
  end.

(** The reading of the specification: a text that parses as a number, an
    optional sign, digits and at most one decimal point, with a digit. *)
Definition spec_numeric (out : string) : bool :=
  let body := match list_ascii_of_string (PyStr.strip out) with
              | c :: rest =>
                  if Ascii.eqb c "-" || Ascii.eqb c "+" then rest else c :: rest
              | [] => []
              end in
  forallb (fun c => PyStr.isdigit c || Ascii.eqb c ".") body
  && existsb PyStr.isdigit body
  && Nat.leb (List.length (filter (Ascii.eqb ".") body)) 1.

(* ------------------------------------------------------------------ *)
(** ** A small world to run the script in *)

Module Example.

Definition cells : list string := ["1"; "2"].

(** The table of the end-to-end scenario without a marker file. *)
Definition table : DataFrame :=
  map (fun c => (c, cells))
    ["CellID"; "X_centroid"; "DNA1"; "AF488"; "A488"; "CD3"; "CD8"].

(** A table with the identity column in second place. *)
Definition table2 : DataFrame :=
  map (fun c => (c, cells)) ["X_centroid"; "CellID"; "CD3"].

(** A table without the identity column. *)
Definition table3 : DataFrame :=
  map (fun c => (c, cells)) ["CD3"; "Area"].

(** The first table, its columns from right to left. *)
Definition table_reversed : DataFrame := List.rev table.

Definition config_two_keys : string :=
  "transform: true
transform: false
".

Definition config_no_key : string :=
  "neighbors: 30
".

Definition world (stdout_of_child : proc_outcome) : env :=
  {| open_read := fun f =>
       if String.eqb f "config.yml" then Some config_two_keys
       else if String.eqb f "empty.yml" then Some config_no_key
       else None;
     read_csv := fun f =>
       if String.eqb f "exemplar.csv" then Ok table
       else if String.eqb f "exemplar2.csv" then Ok table2
       else if String.eqb f "exemplar3.csv" then Ok table3
       else if String.eqb f "reversed.csv" then Ok table_reversed
       else Raise (ReadCsvError f);
     can_write := fun _ => true;
     write_error := fun p => ("Permission denied: " ++ p)%string;
     run_process := fun _ => stdout_of_child;
     script_realpath := "/app/cluster.py" |}.

Definition arguments (markers_file config_file : option string)
  (force no : bool) : Args :=
  {| input := "exemplar.csv"; output_arg := None;
     markers_arg := markers_file; verbose := true;
     neighbors := 30; num_threads := 1; method := false;
     config := config_file;
     force_transform := force; no_transform := no |}.

Definition names (markers_file : option string) : globals :=
  {| args := arguments markers_file None false false;
     output := "."; transform := "auto";
     clean_data_file := "exemplar-clean.csv";
     clusters_file := "exemplar-clusters.csv";
     cells_file := "exemplar-cells.csv" |}.

Definition start (ms : list string) : state :=
  {| markers := ms; stdout := []; files := [] |}.

End Example.

(* ------------------------------------------------------------------ *)
(** ** The rest of the script: file names, output directory, [__main__] *)

Module PySlice.

(** [s.rfind(c)] for a one-character [c]: the highest index of [c] in
    [s], and [-1] when there is none. *)
Fixpoint rfind (c : ascii) (s : string) : Z :=
  match s with
  | EmptyString => (-1)%Z
  | String d s' =>
      let r := rfind c s' in
      if Z.ltb r 0 then (if Ascii.eqb d c then 0%Z else (-1)%Z)
      else (r + 1)%Z
  end.

(** [s[:i]]: a negative [i] counts from the end, and the bound is
    clipped to the string. *)
Definition upto (i : Z) (s : string) : string :=
  let n := Z.of_nat (String.length s) in
  let stop := if Z.ltb i 0 then Z.max 0 (i + n) else Z.min i n in
  String.substring 0 (Z.to_nat stop) s.

(** [s[-1]]: [IndexError] on the empty string. *)
Fixpoint last_char (s : string) : outcome ascii :=
  match s with
  | EmptyString => Raise IndexError
  | String c EmptyString => Ok c
  | String _ s' => last_char s'
  end.

End PySlice.

(** [getDataName(path)] *)
Definition getDataName (path : string) : string :=
  let fileName := last (PyStr.split "/" path) "" in
  let dataName := PySlice.upto (PySlice.rfind "." fileName) fileName in
  dataName.

(** Lines 169-174 of [__main__]: the output directory. *)
Definition output_dir (a : Args) : M string :=
  match output_arg a with
  | None => ret "."
  | Some o =>
      c <- lift (PySlice.last_char o) ;;
      if Ascii.eqb c "/" then ret (PySlice.upto (-1) o) else ret o
  end.

(** Lines 177-178 of [__main__]: the list of markers, if provided. *)
Definition load_markers (e : env) (a : Args) : M unit :=
  match markers_arg a with
  | Some markers_file =>
      ms <- get_markers e markers_file ;;
      set_global_markers ms
  | None => ret tt
  end.

(** Lines 194-197 of [__main__]: the names of the output files, with the
    other module-level names. *)
Definition main_globals (a : Args) (out t : string) : globals :=
  let data_prefix := getDataName (input a) in
  {| args := a;
     output := out;
     transform := t;
     clean_data_file := (data_prefix ++ "-clean.csv")%string;
     clusters_file := (data_prefix ++ "-clusters.csv")%string;
     cells_file := (data_prefix ++ "-cells.csv")%string |}.

(** The body of [__main__], [args] being the value of [parseArgs()]. *)
Definition main (e : env) (a : Args) : M unit :=
  out <- output_dir a ;;
  load_markers e a ;;;
  t <- assess_transform e a ;;
  let g := main_globals a out t in
  clean e g (input a) ;;;
  runFastPG e g.

(* ------------------------------------------------------------------ *)
(** ** More vocabulary *)

(** The character [c] does not occur in [s]. *)
Definition nochar (c : ascii) (s : string) : bool :=
  forallb (fun d => negb (Ascii.eqb d c)) (list_ascii_of_string s).

(** Every character of [s] is white space. *)
Definition blank (s : string) : bool :=
  forallb PyStr.isspace (list_ascii_of_string s).

(** A text file with the given lines, each one ended by a newline. *)
Fixpoint unlines (ls : list string) : string :=
  match ls with
  | [] => EmptyString
  | l :: rest => (l ++ String PyStr.newline (unlines rest))%string
  end.

(** The regular expression of a word, character by character, followed
    by [tail]. *)
Fixpoint word_re (w : string) (tail : Re.regex) : Re.regex :=
  match w with
  | EmptyString => tail
  | String c w' => Re.Cat (Re.Lit c) (word_re w' tail)
  end.

(** The words the default patterns start with, but for the last one. *)
Definition default_prefixes : list string :=
  [ "X_centroid"; "Y_centroid"; "column_centroid"; "row_centroid";
    "Area"; "MajorAxisLength"; "MinorAxisLength"; "Eccentricity";
    "Solidity"; "Extent"; "Orientation";
    "DNA"; "Hoechst"; "DAP"; "AF" ].

(** A name starts with one of the words. *)
Definition starts_with_any (ws : list string) (name : string) : bool :=
  existsb (fun w => String.prefix w name) ws.

(* ------------------------------------------------------------------ *)
(** ** A second world, with a marker file, a config file and an output
       directory *)

Module Scenario.

Definition marker_text : string := unlines ["CD3"; "CD8"].

(** A marker file whose second line is blank. *)
Definition marker_text_blank : string := unlines ["CD3"; "  "].

Definition config_text : string :=
  unlines ["neighbors: 30"; "  no_transform: false  "; "threads: 1"].

(** The table [clean] writes for [Example.table] without a marker file. *)
Definition cleaned : DataFrame :=
  map (fun c => (c, Example.cells)) ["CellID"; "CD3"; "CD8"].

Definition world (child : proc_outcome) : env :=
  {| open_read := fun f =>
       if String.eqb f "markers.txt" then Some marker_text
       else if String.eqb f "blank.txt" then Some marker_text_blank
       else if String.eqb f "config.yml" then Some config_text
       else None;
     read_csv := fun f =>
       if String.eqb f "data/exemplar.csv" then Ok Example.table
       else if String.eqb f "out/exemplar-clean.csv" then Ok cleaned
       else Raise (ReadCsvError f);
     can_write := fun p => String.prefix "out/" p;
     write_error := fun p =>
       ("Cannot save file into a non-existent directory: '"
        ++ PyStr.join "/" (removelast (PyStr.split "/" p)) ++ "'")%string;
     run_process := fun _ => child;
     script_realpath := "/app/cluster.py" |}.

Definition arguments (out markers_file config_file : option string)
  (data : string) (talk : bool) : Args :=
  {| input := data; output_arg := out;
     markers_arg := markers_file; verbose := talk;
     neighbors := 30; num_threads := 1; method := false;
     config := config_file;
     force_transform := false; no_transform := false |}.

End Scenario.

(* ------------------------------------------------------------------ *)
(** ** A third world, whose config file asks for the transform *)

Module ConfigWorld.

Definition config_text : string :=
  unlines ["# clustering"; "transform: true"; "neighbors: 30"].

Definition world : env :=
  {| open_read := fun f =>
       if String.eqb f "config.yml" then Some config_text else None;
     read_csv := fun f => Raise (ReadCsvError f);
     can_write := fun _ => false;
     write_error := fun p => ("Permission denied: " ++ p)%string;
     run_process := fun _ => ExecFailed;
     script_realpath := "/app/cluster.py" |}.

End ConfigWorld.

(* ------------------------------------------------------------------ *)
(** ** Facts about strings and about the matcher *)

Module ReFacts.
Import Re.

Lemma sapp_nil_r (s : string) : (s ++ "")%string = s.
Proof. induction s as [|c s IH]; simpl; [reflexivity | now rewrite IH]. Qed.

Lemma sapp_assoc (a b c : string) :
  ((a ++ b) ++ c)%string = (a ++ (b ++ c))%string.
Proof. induction a as [|x a IH]; simpl; [reflexivity | now rewrite IH]. Qed.

Lemma sapp_empty (u v : string) :
  (u ++ v)%string = "" -> u = "" /\ v = "".
Proof. destruct u; simpl; [auto | discriminate]. Qed.

(** [nullable] decides whether the empty word is matched. *)
Lemma nullable_matches (r : regex) : nullable r = true <-> matches r "".
Proof.
  split.
  - induction r; simpl; intro H; try discriminate.
    + constructor.
    + apply andb_prop in H as [H1 H2].
      change "" with ("" ++ "")%string. constructor; auto.
    + apply orb_prop in H as [H|H]; [apply MAltL | apply MAltR]; auto.
    + constructor.
  - intro H. remember "" as w eqn:E.
    induction H; simpl; try discriminate; try reflexivity.
    + apply sapp_empty in E as [-> ->].
      rewrite IHmatches1, IHmatches2; reflexivity.
    + rewrite IHmatches by assumption; reflexivity.
    + rewrite IHmatches by assumption. apply orb_true_r.
Qed.

(** A non-empty word of [r*] starts with a non-empty word of [r]. *)
Lemma star_cons_inv (r : regex) (c : ascii) (s : string) :
  matches (Star r) (String c s) ->
  exists u v, s = (u ++ v)%string /\ matches r (String c u)
              /\ matches (Star r) v.
Proof.
  intro H. remember (Star r) as q eqn:Eq. remember (String c s) as w eqn:Ew.
  revert c s Ew.
  induction H; intros c0 s0 Ew; try discriminate.
  injection Eq as ->.
  destruct u as [|d u].
  - simpl in Ew. apply IHmatches2; auto.
  - simpl in Ew. injection Ew as -> <-.
    exists u, v. auto.
Qed.

(** The derivative matches what is left after the first character. *)
Lemma deriv_matches (r : regex) :
  forall c s, matches (deriv c r) s <-> matches r (String c s).
Proof.
  induction r; intros c s; simpl.
  - split; intro H; inversion H.
  - split; intro H; inversion H.
  - destruct (Ascii.eqb_spec a c) as [->|N]; split; intro H; inversion H; subst.
    + constructor.
    + constructor.
    + congruence.
  - destruct (Ascii.eqb_spec c PyStr.newline) as [->|N];
      split; intro H; inversion H; subst.
    + congruence.
    + constructor; assumption.
    + constructor.
  - destruct (PyStr.isdigit c) eqn:D; split; intro H; inversion H; subst.
    + constructor; assumption.
    + constructor.
    + congruence.
  - assert (L : forall w, matches (Cat (deriv c r1) r2) w ->
                          matches (Cat r1 r2) (String c w)).
    { intros w H. inversion H; subst.
      change (String c (u ++ v)) with (String c u ++ v)%string.
      constructor; [apply IHr1|]; assumption. }
    assert (R : matches (Cat r1 r2) (String c s) ->
                matches (Cat (deriv c r1) r2) s
                \/ (matches r1 "" /\ matches r2 (String c s))).
    { intro H. inversion H as [| | | |q1 q2 u v Hu Hv [E1 E2] E| | | |].
      destruct u as [|d u]; simpl in E.
      - right. subst. auto.
      - left. injection E as -> <-.
        constructor; [apply IHr1|]; assumption. }
    destruct (nullable r1) eqn:N1.
    + split; intro H.
      * inversion H; subst; [auto|].
        change (String c s) with ("" ++ String c s)%string.
        constructor; [apply nullable_matches; assumption | apply IHr2; assumption].
      * destruct (R H) as [H1|[_ H2]]; [apply MAltL | apply MAltR]; auto.
        apply IHr2; assumption.
    + split; intro H; [auto|].
      destruct (R H) as [H1|[H1 _]]; [assumption|].
      apply nullable_matches in H1. congruence.
  - split; intro H; inversion H; subst.
    + apply MAltL, IHr1; assumption.
    + apply MAltR, IHr2; assumption.
    + apply MAltL, IHr1; assumption.
    + apply MAltR, IHr2; assumption.
  - split; intro H.
    + inversion H; subst.
      change (String c (u ++ v)) with (String c u ++ v)%string.
      constructor; [apply IHr|]; assumption.
    + apply star_cons_inv in H as (u & v & -> & Hu & Hv).
      constructor; [apply IHr|]; assumption.
Qed.

(** [match_] succeeds exactly when a prefix of the string is matched. *)
Lemma match_matches (s : string) :
  forall r, match_ r s = true <-> matches_at_start r s.
Proof.
  induction s as [|c s IH]; intro r; simpl.
  - rewrite orb_false_r, nullable_matches. split.
    + intro H. exists "", "". auto.
    + intros (u & v & E & H). symmetry in E.
      apply sapp_empty in E as [-> _]. assumption.
  - split.
    + intro H. apply orb_prop in H as [H|H].
      * exists "", (String c s). split; [reflexivity|].
        apply nullable_matches; assumption.
      * apply IH in H as (u & v & -> & H).
        exists (String c u), v. split; [reflexivity|].
        apply deriv_matches; assumption.
    + intros (u & v & E & H). destruct u as [|d u]; simpl in E.
      * apply nullable_matches in H. rewrite H. reflexivity.
      * injection E as -> ->. apply orb_true_iff. right.
        apply IH. exists u, v. split; [reflexivity|].
        apply deriv_matches; assumption.
Qed.

End ReFacts.

(* ------------------------------------------------------------------ *)
(** ** Facts about lists, data frames and the steps of [clean] *)

Module ScriptFacts.

Lemma mem_In (x : string) (l : list string) :
  PyStr.mem x l = true <-> In x l.
Proof.
  unfold PyStr.mem. rewrite existsb_exists. split.
  - intros (y & Hy & E). apply String.eqb_eq in E. subst. assumption.
  - intro H. exists x. split; [assumption | apply String.eqb_refl].
Qed.

Lemma mem_false (x : string) (l : list string) :
  PyStr.mem x l = false <-> ~ In x l.
Proof.
  rewrite <- mem_In. destruct (PyStr.mem x l); split; congruence.
Qed.

Lemma missing_In (data : DataFrame) (keys : list string) (k : string) :
  In k (Pandas.missing data keys) <->
  In k keys /\ ~ In k (Pandas.columns data).
Proof.
  unfold Pandas.missing. rewrite filter_In, negb_true_iff, mem_false.
  reflexivity.
Qed.

Lemma missing_nil (data : DataFrame) (keys : list string) :
  (forall k, In k keys -> In k (Pandas.columns data)) ->
  Pandas.missing data keys = [].
Proof.
  intro H. destruct (Pandas.missing data keys) as [|k m] eqn:E; [reflexivity|].
  assert (Hk : In k (Pandas.missing data keys)) by (rewrite E; left; reflexivity).
  apply missing_In in Hk as [Hk N]. elim N. auto.
Qed.

Lemma remove_first_notin (x : string) (l : list string) :
  ~ In x l -> remove_first x l = l.
Proof.
  induction l as [|y l IH]; simpl; intro N; [reflexivity|].
  destruct (String.eqb_spec y x) as [->|D].
  - elim N. left. reflexivity.
  - rewrite IH; [reflexivity | intro; apply N; right; assumption].
Qed.

Lemma remove_first_split (x : string) (l1 l2 : list string) :
  ~ In x l1 -> remove_first x (l1 ++ x :: l2) = l1 ++ l2.
Proof.
  induction l1 as [|y l1 IH]; simpl; intro N.
  - rewrite String.eqb_refl. reflexivity.
  - destruct (String.eqb_spec y x) as [->|D].
    + elim N. left. reflexivity.
    + rewrite IH; [reflexivity | intro; apply N; right; assumption].
Qed.

(** [l.index(x)] finds the first occurrence and [l.pop] takes it out. *)
Lemma index_pop (x : string) (l : list string) :
  In x l ->
  exists i, PyList.index x l = Ok i
            /\ PyList.pop i l = Ok (x, remove_first x l)
            /\ (i = 0 <-> hd_error l = Some x).
Proof.
  induction l as [|y l IH]; simpl; intro H; [contradiction|].
  destruct (String.eqb_spec y x) as [->|D].
  - exists 0. repeat split; reflexivity.
  - destruct H as [H|H]; [congruence|].
    destruct (IH H) as (i & Ei & Ep & _).
    exists (S i). rewrite Ei. simpl. rewrite Ep.
    repeat split; try discriminate. intro E. congruence.
Qed.

Lemma bind_ok {A B} (m : M A) (k : A -> M B) (st : state) (a : A)
  (st' : state) :
  m st = (Ok a, st') -> bind m k st = k a st'.
Proof. unfold bind. intros ->. reflexivity. Qed.

Lemma bind_raise {A B} (m : M A) (k : A -> M B) (st : state) (x : exn)
  (st' : state) :
  m st = (Raise x, st') -> bind m k st = (Raise x, st').
Proof. unfold bind. intros ->. reflexivity. Qed.

Lemma state_eta (st : state) :
  {| markers := markers st; stdout := stdout st; files := files st |} = st.
Proof. destruct st; reflexivity. Qed.

(** The in-place update of [markers] never raises and leaves the
    identity column first. *)
Lemma normalize_markers_run (st : state) :
  normalize_markers st = (Ok tt, with_markers (normalized (markers st)) st).
Proof.
  unfold normalize_markers, bind, get_global_markers, set_global_markers,
    lift, with_markers, normalized, ret.
  destruct (PyStr.mem CELL_ID (markers st)) eqn:E; simpl.
  - apply mem_In in E.
    destruct (index_pop CELL_ID (markers st) E) as (i & Ei & Ep & Z).
    rewrite Ei. destruct i as [|i]; cbn [Nat.eqb negb].
    + destruct Z as [Z _]. specialize (Z eq_refl).
      destruct (markers st) as [|y l] eqn:Em; [discriminate|].
      simpl in Z. injection Z as ->. simpl.
      rewrite <- Em. rewrite state_eta. reflexivity.
    + rewrite Ep. reflexivity.
  - apply mem_false in E. rewrite remove_first_notin by assumption.
    reflexivity.
Qed.

Lemma re_match_compiled (p : string) (r : Re.regex) (c : string) :
  Re.compile p = Some r -> re_match p c = Re.match_ r c.
Proof. unfold re_match. intros ->. reflexivity. Qed.

(** The boolean test and the anchored match agree. *)
Lemma re_match_start (p c : string) :
  re_match p c = true <-> matches_start p c.
Proof.
  unfold re_match, matches_start.
  destruct (Re.compile p) as [r|].
  - rewrite ReFacts.match_matches. split.
    + intro H. exists r. auto.
    + intros (r' & E & H). injection E as <-. assumption.
  - split; [discriminate | intros (r' & E & _); discriminate].
Qed.

(** The loop over the patterns gathers the columns that some pattern
    matches. *)
Lemma collect_columns_ok (cols : list string) (fs : list string) :
  forall acc,
    (forall p, In p fs -> Re.compile p <> None) ->
    exists l, collect_columns fs cols acc = Ok l
              /\ forall c, In c l <->
                           In c acc \/
                           (In c cols
                            /\ existsb (fun p => re_match p c) fs = true).
Proof.
  induction fs as [|p fs IH]; intros acc Hc; simpl.
  - exists acc. split; [reflexivity|]. intro c. split; [auto|].
    intros [H|[_ H]]; [assumption | discriminate].
  - destruct (Re.compile p) as [r|] eqn:E.
    + destruct (IH (acc ++ filter (Re.match_ r) cols)) as (l & El & Hl).
      { intros q Hq. apply Hc. right. assumption. }
      exists l. split; [assumption|]. intro c. rewrite Hl.
      rewrite in_app_iff, filter_In, orb_true_iff.
      rewrite (re_match_compiled p r c E). tauto.
    + elim (Hc p); [left; reflexivity | assumption].
Qed.

Lemma features_compile (p : string) :
  In p FEATURES_TO_REMOVE -> Re.compile p <> None.
Proof.
  assert (F : forallb (fun q => match Re.compile q with
                                | Some _ => true
                                | None => false
                                end) FEATURES_TO_REMOVE = true)
    by (vm_compute; reflexivity).
  intro H. rewrite forallb_forall in F. specialize (F p H).
  destruct (Re.compile p); [discriminate | discriminate F].
Qed.

Section CleanRun.

Variables (e : env) (g : globals) (input_file : string).
Variables (st : state) (data : DataFrame).
Hypothesis Hread : read_csv e input_file = Ok data.

Lemma clean_banner_run :
  when (verbose (args g)) (print "Cleaning data...") st
  = (Ok tt, with_printed (clean_banner g) st).
Proof.
  unfold when, clean_banner, with_printed, print, ret.
  destruct (verbose (args g)); simpl; [reflexivity|].
  rewrite app_nil_r, state_eta. reflexivity.
Qed.

(** [clean] without a marker file: the columns that no default pattern
    matches are written, in their order. *)
Lemma clean_exclusion_run :
  truthy (markers_arg (args g)) = false ->
  can_write e (clean_path g) = true ->
  clean e g input_file st =
    (Ok tt,
     with_printed (clean_done g)
       (with_file (clean_path g)
          (filter (fun col => negb (excluded (fst col))) data)
          (with_printed (clean_banner g) st))).
Proof.
  intros Hm Hw.
  destruct (collect_columns_ok (Pandas.columns data) FEATURES_TO_REMOVE [])
    as (l & El & Hl); [exact features_compile|].
  assert (Hmiss : Pandas.missing data l = []).
  { apply missing_nil. intros k Hk. apply Hl in Hk as [[]|[Hk _]]. assumption. }
  assert (Hf : filter (fun col => negb (PyStr.mem (fst col) l)) data
               = filter (fun col => negb (excluded (fst col))) data).
  { apply filter_ext_in. intros col Hcol. f_equal.
    assert (Hin : In (fst col) (Pandas.columns data))
      by (apply in_map; assumption).
    unfold excluded.
    destruct (existsb (fun p => re_match p (fst col)) FEATURES_TO_REMOVE) eqn:X.
    - apply mem_In, Hl. right. auto.
    - apply mem_false. intro H. apply Hl in H as [[]|[_ H]]. congruence. }
  unfold clean. rewrite Hm.
  rewrite (bind_ok _ _ _ _ _ clean_banner_run).
  rewrite (bind_ok (lift (read_csv e input_file)) _ _ data _)
    by (unfold lift; rewrite Hread; reflexivity).
  unfold bind, lift, Pandas.drop, to_csv. fold (clean_path g).
  rewrite El, Hmiss, Hf, Hw.
  unfold when, clean_done, with_printed, with_file, print, ret.
  destruct (verbose (args g)); simpl; [reflexivity|].
  rewrite !app_nil_r. reflexivity.
Qed.

(** [clean] with a marker file, up to the selection of the columns. *)
Lemma clean_inclusion_run :
  truthy (markers_arg (args g)) = true ->
  let st1 := with_markers (normalized (markers st))
               (with_printed (clean_banner g) st) in
  clean e g input_file st =
    match Pandas.getitem data (normalized (markers st)) with
    | Ok data' =>
        if can_write e (clean_path g)
        then (Ok tt, with_printed (clean_done g)
                       (with_file (clean_path g) data' st1))
        else (Raise (OSError (write_error e (clean_path g))), st1)
    | Raise x => (Raise x, st1)
    end.
Proof.
  intros Hm st1. subst st1.
  unfold clean. rewrite Hm.
  rewrite (bind_ok _ _ _ _ _ clean_banner_run).
  rewrite (bind_ok (lift (read_csv e input_file)) _ _ data _)
    by (unfold lift; rewrite Hread; reflexivity).
  set (st0 := with_printed (clean_banner g) st).
  assert (Hsel : (normalize_markers ;;;
                  ms <- get_global_markers ;;
                  lift (Pandas.getitem data ms)) st0
                 = (Pandas.getitem data (normalized (markers st)),
                    with_markers (normalized (markers st)) st0)).
  { rewrite (bind_ok _ _ _ _ _ (normalize_markers_run st0)).
    reflexivity. }
  destruct (Pandas.getitem data (normalized (markers st))) as [d|x].
  - rewrite (bind_ok _ _ _ _ _ Hsel).
    unfold bind, to_csv. fold (clean_path g).
    destruct (can_write e (clean_path g)); [|reflexivity].
    unfold when, clean_done, with_printed, with_file, print, ret.
    destruct (verbose (args g)); simpl; [reflexivity|].
    rewrite app_nil_r. reflexivity.
  - rewrite (bind_raise _ _ _ _ _ Hsel). reflexivity.
Qed.

End CleanRun.

End ScriptFacts.

(* ------------------------------------------------------------------ *)
(** ** Exclusion mode *)

(** C1: without a marker file, [clean] succeeds and writes the columns of
    the source table that no default pattern matches at the start of
    their label: every retained column fails every pattern, every dropped
    column is matched by at least one, and the unmatched columns are kept,
    in their order and with their cells, without an error. *)
Theorem exclusion_mode_columns (e : env) (g : globals) (input_file : string)
  (st : state) (data : DataFrame) :
  truthy (markers_arg (args g)) = false ->
  read_csv e input_file = Ok data ->
  can_write e (clean_path g) = true ->
  exists st' cleaned,
    clean e g input_file st = (Ok tt, st')
    /\ files st' = (clean_path g, cleaned) :: files st
    /\ cleaned = filter (fun col => negb (excluded (fst col))) data
    /\ (forall col, In col cleaned ->
          In col data /\
          forall p, In p FEATURES_TO_REMOVE -> ~ matches_start p (fst col))
    /\ (forall col, In col data -> ~ In col cleaned ->
          exists p, In p FEATURES_TO_REMOVE /\ matches_start p (fst col)).
Proof.
  intros Hm Hr Hw.
  eexists. exists (filter (fun col => negb (excluded (fst col))) data).
  split; [apply (ScriptFacts.clean_exclusion_run e g input_file st data Hr Hm Hw)|].
  split; [reflexivity|]. split; [reflexivity|]. split.
  - intros col Hc. apply filter_In in Hc as [Hin Hx]. split; [assumption|].
    intros p Hp Hs. apply ScriptFacts.re_match_start in Hs.
    apply negb_true_iff in Hx. unfold excluded in Hx.
    assert (X : existsb (fun q => re_match q (fst col)) FEATURES_TO_REMOVE = true)
      by (apply existsb_exists; exists p; auto).
    congruence.
  - intros col Hin Hn.
    destruct (excluded (fst col)) eqn:X.
    + unfold excluded in X. apply existsb_exists in X as (p & Hp & Hs).
      exists p. split; [assumption|]. apply ScriptFacts.re_match_start. assumption.
    + elim Hn. apply filter_In. split; [assumption|]. rewrite X. reflexivity.
Qed.

Lemma exclusion_mode_columns_witness :
  exists st' cleaned,
    clean (Example.world ExecFailed) (Example.names None) "exemplar.csv"
      (Example.start []) = (Ok tt, st')
    /\ files st' = ("./exemplar-clean.csv", cleaned) :: []
    /\ Pandas.columns cleaned = ["CellID"; "CD3"; "CD8"].
Proof.
  destruct (exclusion_mode_columns (Example.world ExecFailed)
              (Example.names None) "exemplar.csv" (Example.start [])
              Example.table eq_refl eq_refl eq_refl)
    as (st' & cleaned & Hrun & Hfiles & Hc & _).
  exists st', cleaned. split; [exact Hrun|]. split; [exact Hfiles|].
  rewrite Hc. vm_compute. reflexivity.
Defined.

(* ------------------------------------------------------------------ *)
(** ** The secondary-antibody pattern *)

Module AntibodyFacts.
Import Re.

Lemma antibody_compiled :
  compile antibody_pattern
  = Some (Cat (Lit "A") (Cat digit3 (Cat (Star Dot) Eps))).
Proof. reflexivity. Qed.

Lemma lit_inv (c : ascii) (w : string) :
  matches (Lit c) w -> w = String c "".
Proof. intro H. inversion H. reflexivity. Qed.

Lemma digit_inv (w : string) :
  matches Digit w -> exists c, w = String c "" /\ PyStr.isdigit c = true.
Proof. intro H. inversion H. eauto. Qed.

Lemma cat_inv (r1 r2 : regex) (w : string) :
  matches (Cat r1 r2) w ->
  exists u v, w = (u ++ v)%string /\ matches r1 u /\ matches r2 v.
Proof. intro H. inversion H. eauto. Qed.

Lemma eps_inv (w : string) : matches Eps w -> w = "".
Proof. intro H. inversion H. reflexivity. Qed.

Lemma digit_cons (c : ascii) (r : regex) (w : string) :
  PyStr.isdigit c = true -> matches r w ->
  matches (Cat Digit r) (String c w).
Proof.
  intros D H. change (String c w) with (String c "" ++ w)%string.
  constructor; [constructor|]; assumption.
Qed.

(** Three digits, nothing else. *)
Lemma digit3_words (w : string) :
  matches digit3 w <->
  exists d1 d2 d3, w = String d1 (String d2 (String d3 ""))
                   /\ PyStr.isdigit d1 = true /\ PyStr.isdigit d2 = true
                   /\ PyStr.isdigit d3 = true.
Proof.
  unfold digit3. split.
  - intro H.
    apply cat_inv in H as (u1 & v1 & -> & H1 & H).
    apply cat_inv in H as (u2 & v2 & -> & H2 & H).
    apply cat_inv in H as (u3 & v3 & -> & H3 & H).
    apply eps_inv in H as ->.
    apply digit_inv in H1 as (d1 & -> & D1).
    apply digit_inv in H2 as (d2 & -> & D2).
    apply digit_inv in H3 as (d3 & -> & D3).
    exists d1, d2, d3. auto.
  - intros (d1 & d2 & d3 & -> & D1 & D2 & D3).
    repeat (apply digit_cons; [assumption|]). constructor.
Qed.

(** The names the pattern matches at their start. *)
Lemma antibody_names (s : string) :
  re_match antibody_pattern s = true <->
  exists d1 d2 d3 rest,
    s = String "A" (String d1 (String d2 (String d3 rest)))
    /\ PyStr.isdigit d1 = true /\ PyStr.isdigit d2 = true
    /\ PyStr.isdigit d3 = true.
Proof.
  rewrite ScriptFacts.re_match_start. unfold matches_start.
  rewrite antibody_compiled. split.
  - intros (r & E & u & v & -> & H). injection E as <-.
    apply cat_inv in H as (a & w & -> & Ha & H).
    apply lit_inv in Ha as ->.
    apply cat_inv in H as (w3 & w' & -> & H3 & _).
    apply digit3_words in H3 as (d1 & d2 & d3 & -> & D1 & D2 & D3).
    exists d1, d2, d3, (w' ++ v)%string. simpl. auto.
  - intros (d1 & d2 & d3 & rest & -> & D1 & D2 & D3).
    eexists. split; [reflexivity|].
    exists (String "A" (String d1 (String d2 (String d3 "")))), rest.
    split; [reflexivity|].
    apply (MCat (Lit "A") _ (String "A" "") (String d1 (String d2 (String d3 "")))).
    + constructor.
    + apply (MCat digit3 _ (String d1 (String d2 (String d3 ""))) "").
      * apply digit3_words. exists d1, d2, d3. auto.
      * apply (MCat (Star Dot) Eps "" ""); constructor.
Qed.

End AntibodyFacts.

(** C4: the secondary-antibody pattern, matched at the start of a column
    name, does not match [A48], matches [A488], [A4885] and [A488x], and
    matches no name that starts with [AF]; those are matched by the
    pattern of the autofluorescence channels.  In general it matches the
    names made of [A], three digits and any suffix. *)
Theorem antibody_pattern_boundary :
  antibody_pattern = "A\d{3}.*"
  /\ re_match antibody_pattern "A48" = false
  /\ re_match antibody_pattern "A488" = true
  /\ re_match antibody_pattern "A4885" = true
  /\ re_match antibody_pattern "A488x" = true
  /\ re_match antibody_pattern "AF488" = false
  /\ (forall s, re_match antibody_pattern ("AF" ++ s) = false)
  /\ (In "AF.*" FEATURES_TO_REMOVE /\ re_match "AF.*" "AF488" = true)
  /\ (forall s,
        re_match antibody_pattern s = true <->
        exists d1 d2 d3 rest,
          s = String "A" (String d1 (String d2 (String d3 rest)))
          /\ PyStr.isdigit d1 = true /\ PyStr.isdigit d2 = true
          /\ PyStr.isdigit d3 = true).
Proof.
  repeat split; try reflexivity.
  - intro s. destruct (re_match antibody_pattern ("AF" ++ s)) eqn:E; [|reflexivity].
    apply AntibodyFacts.antibody_names in E
      as (d1 & d2 & d3 & rest & E & D1 & _).
    simpl in E. injection E as <- _. discriminate D1.
  - simpl. tauto.
  - apply AntibodyFacts.antibody_names.
  - apply AntibodyFacts.antibody_names.
Qed.

(* ------------------------------------------------------------------ *)
(** ** The marker list *)

(** C3: when the marker list does not hold [CellID], the update of
    [markers] puts [CellID] in front of the unchanged list; when it holds
    [CellID] at any position, the first [CellID] is moved to position 0
    and all the other entries keep their order. *)
Theorem marker_list_normalization (st : state) :
  (~ In CELL_ID (markers st) ->
   normalize_markers st
   = (Ok tt, with_markers (CELL_ID :: markers st) st))
  /\ (forall before behind,
        markers st = before ++ CELL_ID :: behind ->
        ~ In CELL_ID before ->
        normalize_markers st
        = (Ok tt, with_markers (CELL_ID :: before ++ behind) st)).
Proof.
  rewrite ScriptFacts.normalize_markers_run. unfold normalized. split.
  - intro N. rewrite ScriptFacts.remove_first_notin by assumption. reflexivity.
  - intros before behind E N. rewrite E.
    rewrite ScriptFacts.remove_first_split by assumption. reflexivity.
Qed.

Lemma marker_list_normalization_witness :
  normalize_markers (Example.start ["CD3"; "CD8"])
  = (Ok tt, Example.start ["CellID"; "CD3"; "CD8"])
  /\ normalize_markers (Example.start ["CD3"; "CellID"; "CD8"])
     = (Ok tt, Example.start ["CellID"; "CD3"; "CD8"]).
Proof.
  split.
  - apply (proj1 (marker_list_normalization (Example.start ["CD3"; "CD8"]))).
    simpl. intros [H|[H|[]]]; discriminate H.
  - apply (proj2 (marker_list_normalization
                    (Example.start ["CD3"; "CellID"; "CD8"]))
             ["CD3"] ["CD8"]).
    + reflexivity.
    + simpl. intros [H|[]]. discriminate H.
Defined.

(* ------------------------------------------------------------------ *)
(** ** The transform mode *)

Module ConfigFacts.

Lemma prefix_cons (a c : ascii) (sub s : string) :
  String.prefix (String a sub) (String c s)
  = Ascii.eqb a c && String.prefix sub s.
Proof.
  simpl. destruct (Ascii.ascii_dec a c) as [->|N].
  - rewrite Ascii.eqb_refl. reflexivity.
  - apply Ascii.eqb_neq in N. rewrite N. reflexivity.
Qed.

Lemma prefix_nil (sub : string) : String.prefix "" sub = true.
Proof. destruct sub; reflexivity. Qed.

Lemma space_differs (a c : ascii) :
  PyStr.isspace a = false -> PyStr.isspace c = true -> Ascii.eqb a c = false.
Proof. intros Ha Hc. apply Ascii.eqb_neq. intros ->. congruence. Qed.

Lemma rstrip_cons (c : ascii) (s : string) :
  PyStr.rstrip (String c s)
  = match PyStr.rstrip s with
    | EmptyString => if PyStr.isspace c then "" else String c ""
    | _ => String c (PyStr.rstrip s)
    end.
Proof. simpl. destruct (PyStr.rstrip s); reflexivity. Qed.

Lemma prefix_rstrip (s : string) :
  forall sub, solid sub = true ->
              String.prefix sub (PyStr.rstrip s) = String.prefix sub s.
Proof.
  induction s as [|c s IH]; intros sub Hs; [reflexivity|].
  destruct sub as [|a sub]; [rewrite !prefix_nil; reflexivity|].
  unfold solid in Hs. simpl in Hs. apply andb_prop in Hs as [Ha Hs].
  apply negb_true_iff in Ha. specialize (IH sub Hs).
  rewrite rstrip_cons, (prefix_cons a c sub s).
  destruct (PyStr.rstrip s) as [|x r] eqn:E.
  - destruct (PyStr.isspace c) eqn:Hc.
    + rewrite (space_differs a c Ha Hc). reflexivity.
    + rewrite prefix_cons, IH. reflexivity.
  - rewrite prefix_cons, IH. reflexivity.
Qed.

Lemma contains_unfold (sub s : string) :
  PyStr.contains sub s
  = String.prefix sub s
    || match s with
       | EmptyString => false
       | String _ s' => PyStr.contains sub s'
       end.
Proof. destruct s; reflexivity. Qed.

Lemma contains_rstrip (a : ascii) (sub s : string) :
  solid (String a sub) = true ->
  PyStr.contains (String a sub) (PyStr.rstrip s)
  = PyStr.contains (String a sub) s.
Proof.
  intro Hs. induction s as [|c s IH]; [reflexivity|].
  rewrite (contains_unfold _ (String c s)).
  rewrite <- (prefix_rstrip (String c s) _ Hs), <- IH.
  rewrite rstrip_cons.
  destruct (PyStr.rstrip s) as [|x r] eqn:E.
  - destruct (PyStr.isspace c); reflexivity.
  - reflexivity.
Qed.

Lemma contains_lstrip (a : ascii) (sub s : string) :
  PyStr.isspace a = false ->
  PyStr.contains (String a sub) (PyStr.lstrip s)
  = PyStr.contains (String a sub) s.
Proof.
  intro Ha. induction s as [|c s IH]; [reflexivity|].
  simpl PyStr.lstrip. destruct (PyStr.isspace c) eqn:Hc; [|reflexivity].
  rewrite IH, (contains_unfold _ (String c s)), prefix_cons.
  rewrite (space_differs a c Ha Hc). reflexivity.
Qed.

(** Stripping a line neither hides nor reveals the key. *)
Lemma has_key_strip (l : string) : has_key (PyStr.strip l) = has_key l.
Proof.
  unfold has_key, PyStr.strip.
  rewrite contains_rstrip by reflexivity.
  apply contains_lstrip. reflexivity.
Qed.

Lemma loop_step (l : string) (rest : list string) (acc : option string) :
  readConfig_loop (l :: rest) acc
  = readConfig_loop rest (if has_key l then Some (value_of l) else acc).
Proof.
  simpl. fold (has_key (PyStr.strip l)). rewrite has_key_strip.
  destruct (has_key l); reflexivity.
Qed.

Lemma loop_no_key (lines : list string) :
  forall acc, (forall l, In l lines -> has_key l = false) ->
              readConfig_loop lines acc = acc.
Proof.
  induction lines as [|l lines IH]; intros acc H; [reflexivity|].
  rewrite loop_step, (H l (or_introl eq_refl)).
  apply IH. intros l' Hl'. apply H. right. assumption.
Qed.

(** The last line with the key decides. *)
Lemma loop_last_key (before : list string) (l : string)
  (behind : list string) :
  forall acc,
    has_key l = true ->
    (forall l', In l' behind -> has_key l' = false) ->
    readConfig_loop (before ++ l :: behind) acc = Some (value_of l).
Proof.
  induction before as [|b before IH]; intros acc Hl Hb.
  - rewrite app_nil_l, loop_step, Hl. apply loop_no_key. assumption.
  - rewrite <- app_comm_cons, loop_step. apply IH; assumption.
Qed.

Lemma loop_assigned (lines : list string) :
  forall acc,
    acc <> None \/ (exists l, In l lines /\ has_key l = true) ->
    readConfig_loop lines acc <> None.
Proof.
  induction lines as [|l lines IH]; intros acc H.
  - destruct H as [H|(l & [] & _)]. assumption.
  - rewrite loop_step. apply IH.
    destruct H as [H|(l' & [<-|Hl'] & K)].
    + left. destruct (has_key l); [discriminate | assumption].
    + left. rewrite K. discriminate.
    + right. eauto.
Qed.

Lemma readConfig_run (e : env) (file contents : string) (st : state) :
  open_read e file = Some contents ->
  readConfig e file st
  = match readConfig_loop (PyStr.readlines contents) None with
    | Some v => (Ok v, st)
    | None => (Raise (UnboundLocalError "transform"), st)
    end.
Proof.
  intro H. unfold readConfig, open_file, bind. rewrite H. unfold ret, raise.
  destruct (readConfig_loop (PyStr.readlines contents) None); reflexivity.
Qed.

Lemma assess_fallthrough (e : env) (a : Args) :
  force_transform a = no_transform a ->
  assess_transform e a
  = match config a with
    | Some file => readConfig e file
    | None => ret "auto"
    end.
Proof.
  unfold assess_transform. intros ->.
  destruct (no_transform a); reflexivity.
Qed.

End ConfigFacts.

(** C2: the four rules of the transform mode, in their order: the force
    flag alone gives [true]; the no-transform flag alone gives [false];
    otherwise (both flags set, or none) the value read from the config
    file when a path is given, and [auto] when none is given.  The value
    read from the config file is what [readConfig] returns: the stripped
    text after the last colon of the last line of the file that holds
    [transform:].  Both flags set without a config file give [auto], not
    an error. *)
Theorem transform_resolution (e : env) (a : Args) (st : state) :
  (force_transform a = true -> no_transform a = false ->
   assess_transform e a st = (Ok "true", st))
  /\ (force_transform a = false -> no_transform a = true ->
      assess_transform e a st = (Ok "false", st))
  /\ (force_transform a = no_transform a ->
      forall file, config a = Some file ->
                   assess_transform e a st = readConfig e file st)
  /\ (force_transform a = no_transform a ->
      forall file contents before l behind,
        config a = Some file ->
        open_read e file = Some contents ->
        PyStr.readlines contents = before ++ l :: behind ->
        has_key l = true ->
        (forall l', In l' behind -> has_key l' = false) ->
        assess_transform e a st
        = (Ok (PyStr.strip (last (PyStr.split ":" l) "")), st))
  /\ (force_transform a = no_transform a -> config a = None ->
      assess_transform e a st = (Ok "auto", st))
  /\ (force_transform a = true -> no_transform a = true -> config a = None ->
      assess_transform e a st = (Ok "auto", st)).
Proof.
  repeat split.
  - intros F N. unfold assess_transform. rewrite F, N. reflexivity.
  - intros F N. unfold assess_transform. rewrite F, N. reflexivity.
  - intros E file C. rewrite (ConfigFacts.assess_fallthrough e a E), C.
    reflexivity.
  - intros E file contents before l behind C Ho El Hl Hb.
    rewrite (ConfigFacts.assess_fallthrough e a E), C.
    rewrite (ConfigFacts.readConfig_run e file contents st Ho), El.
    rewrite (ConfigFacts.loop_last_key before l behind None Hl Hb).
    reflexivity.
  - intros E C. rewrite (ConfigFacts.assess_fallthrough e a E), C.
    reflexivity.
  - intros F N C. unfold assess_transform. rewrite F, N, C. reflexivity.
Qed.

Lemma transform_resolution_witness :
  let w := Example.world ExecFailed in
  let s := Example.start [] in
  assess_transform w (Example.arguments None (Some "config.yml") true false) s
  = (Ok "true", s)
  /\ assess_transform w (Example.arguments None (Some "config.yml") false true) s
     = (Ok "false", s)
  /\ assess_transform w (Example.arguments None (Some "config.yml") false false) s
     = readConfig w "config.yml" s
  /\ assess_transform ConfigWorld.world
       (Example.arguments None (Some "config.yml") false false) s
     = (Ok "true", s)
  /\ assess_transform ConfigWorld.world
       (Example.arguments None (Some "config.yml") true true) s
     = (Ok "true", s)
  /\ assess_transform w (Example.arguments None None false false) s
     = (Ok "auto", s)
  /\ assess_transform w (Example.arguments None None true true) s
     = (Ok "auto", s).
Proof.
  intros w s. split; [|split; [|split; [|split; [|split; [|split]]]]].
  - destruct (transform_resolution w
                (Example.arguments None (Some "config.yml") true false) s)
      as (R & _).
    apply R; reflexivity.
  - destruct (transform_resolution w
                (Example.arguments None (Some "config.yml") false true) s)
      as (_ & R & _).
    apply R; reflexivity.
  - destruct (transform_resolution w
                (Example.arguments None (Some "config.yml") false false) s)
      as (_ & _ & R & _).
    apply R; reflexivity.
  - destruct (transform_resolution ConfigWorld.world
                (Example.arguments None (Some "config.yml") false false) s)
      as (_ & _ & _ & R & _).
    apply (R eq_refl "config.yml" ConfigWorld.config_text
             ["# clustering" ++ String PyStr.newline ""]%string
             ("transform: true" ++ String PyStr.newline "")%string
             ["neighbors: 30" ++ String PyStr.newline ""]%string);
      try reflexivity.
    simpl. intros l' [<-|[]]. reflexivity.
  - destruct (transform_resolution ConfigWorld.world
                (Example.arguments None (Some "config.yml") true true) s)
      as (_ & _ & _ & R & _).
    apply (R eq_refl "config.yml" ConfigWorld.config_text
             ["# clustering" ++ String PyStr.newline ""]%string
             ("transform: true" ++ String PyStr.newline "")%string
             ["neighbors: 30" ++ String PyStr.newline ""]%string);
      try reflexivity.
    simpl. intros l' [<-|[]]. reflexivity.
  - destruct (transform_resolution w
                (Example.arguments None None false false) s)
      as (_ & _ & _ & _ & R & _).
    apply R; reflexivity.
  - destruct (transform_resolution w
                (Example.arguments None None true true) s)
      as (_ & _ & _ & _ & _ & R).
    apply R; reflexivity.
Defined.

(** C5, as stated: the value would come from the first line that holds
    the key.  A config file with the lines [transform: true] and
    [transform: false] gives [false], the value of its last key line,
    where the first line gives [true]. *)
Lemma first_key_line_counterexample :
  PyStr.readlines Example.config_two_keys
  = ["transform: true" ++ String PyStr.newline "";
     "transform: false" ++ String PyStr.newline ""]%string
  /\ spec_first_value (PyStr.readlines Example.config_two_keys) = Some "true"
  /\ readConfig (Example.world ExecFailed) "config.yml" (Example.start [])
     = (Ok "false", Example.start [])
  /\ ~ (exists v,
          spec_first_value (PyStr.readlines Example.config_two_keys) = Some v
          /\ readConfig (Example.world ExecFailed) "config.yml" (Example.start [])
             = (Ok v, Example.start [])).
Proof.
  split; [reflexivity|]. split; [reflexivity|]. split; [reflexivity|].
  intros (v & Hs & Hr). vm_compute in Hs, Hr. congruence.
Qed.

(** C5, amended: the mode read from a config file is what follows the
    last colon of the last line that holds the key [transform:], stripped
    of surrounding white space and otherwise unchanged; every config file
    with at least one such line gives a mode. *)
Theorem config_value_last_key_line (e : env) (file contents : string)
  (st : state) :
  open_read e file = Some contents ->
  (forall before l behind,
      PyStr.readlines contents = before ++ l :: behind ->
      has_key l = true ->
      (forall l', In l' behind -> has_key l' = false) ->
      readConfig e file st
      = (Ok (PyStr.strip (last (PyStr.split ":" l) "")), st))
  /\ ((exists l, In l (PyStr.readlines contents) /\ has_key l = true) ->
      exists v, readConfig e file st = (Ok v, st)).
Proof.
  intro H. rewrite (ConfigFacts.readConfig_run e file contents st H). split.
  - intros before l behind E Hl Hb. rewrite E.
    rewrite (ConfigFacts.loop_last_key before l behind None Hl Hb).
    reflexivity.
  - intro Hex.
    destruct (readConfig_loop (PyStr.readlines contents) None) as [v|] eqn:E.
    + exists v. reflexivity.
    + elim (ConfigFacts.loop_assigned (PyStr.readlines contents) None);
        [right; assumption | assumption].
Qed.

Lemma config_value_last_key_line_witness :
  readConfig (Example.world ExecFailed) "config.yml" (Example.start [])
  = (Ok "false", Example.start []).
Proof.
  apply (proj1 (config_value_last_key_line (Example.world ExecFailed)
                  "config.yml" Example.config_two_keys (Example.start [])
                  eq_refl)
           ["transform: true" ++ String PyStr.newline ""]%string
           ("transform: false" ++ String PyStr.newline "")%string
           []).
  - reflexivity.
  - reflexivity.
  - intros l' [].
Defined.

(** C6: when the transform mode is to come from a config file, the
    resolution fails if the file cannot be opened ([open] raises), and
    fails too if no line of the file holds the key [transform:] (the
    local variable was never assigned): no mode is returned. *)
Theorem config_failures (e : env) (a : Args) (file : string) (st : state) :
  force_transform a = no_transform a ->
  config a = Some file ->
  (open_read e file = None ->
   readConfig e file st = (Raise (OSError file), st)
   /\ assess_transform e a st = (Raise (OSError file), st))
  /\ (forall contents,
        open_read e file = Some contents ->
        (forall l, In l (PyStr.readlines contents) -> has_key l = false) ->
        readConfig e file st = (Raise (UnboundLocalError "transform"), st)
        /\ assess_transform e a st
           = (Raise (UnboundLocalError "transform"), st)).
Proof.
  intros E C. rewrite (ConfigFacts.assess_fallthrough e a E), C. split.
  - intro H. unfold readConfig, open_file, bind. rewrite H. split; reflexivity.
  - intros contents H N.
    rewrite (ConfigFacts.readConfig_run e file contents st H).
    rewrite (ConfigFacts.loop_no_key _ None N). split; reflexivity.
Qed.

Lemma config_failures_witness :
  let w := Example.world ExecFailed in
  let s := Example.start [] in
  assess_transform w (Example.arguments None (Some "missing.yml") true true) s
  = (Raise (OSError "missing.yml"), s)
  /\ assess_transform w (Example.arguments None (Some "empty.yml") false false) s
     = (Raise (UnboundLocalError "transform"), s).
Proof.
  intros w s. split.
  - apply (proj1 (config_failures w
                    (Example.arguments None (Some "missing.yml") true true)
                    "missing.yml" s eq_refl eq_refl)).
    reflexivity.
  - apply (proj2 (config_failures w
                    (Example.arguments None (Some "empty.yml") false false)
                    "empty.yml" s eq_refl eq_refl)
             Example.config_no_key eq_refl).
    simpl. intros l [<-|[]]. reflexivity.
Defined.

(* ------------------------------------------------------------------ *)
(** ** Inclusion mode *)

Module SelectionFacts.

Lemma labelled_none (k : string) (data : DataFrame) :
  ~ In k (Pandas.columns data) -> labelled k data = [].
Proof.
  unfold labelled.
  induction data as [|[k' v'] data IH]; simpl; intro N; [reflexivity|].
  destruct (String.eqb_spec k' k) as [->|D].
  - elim N. left. reflexivity.
  - apply IH. intro H. apply N. right. assumption.
Qed.

(** With distinct labels, a label selects one column. *)
Lemma labelled_unique (k : string) (v : list string) (data : DataFrame) :
  NoDup (Pandas.columns data) -> In (k, v) data ->
  labelled k data = [(k, v)].
Proof.
  induction data as [|[k' v'] data IH]; unfold labelled; simpl; intros N H;
    [contradiction|].
  inversion N as [|x l Hx Hl]; subst.
  destruct (String.eqb_spec k' k) as [->|D].
  - destruct H as [H|H].
    + injection H as ->. fold (labelled k data).
      rewrite labelled_none by assumption. reflexivity.
    + elim Hx. change k with (fst (k, v)). apply in_map. assumption.
  - destruct H as [H|H]; [congruence|]. apply IH; assumption.
Qed.

Lemma labelled_head (k : string) (data : DataFrame) :
  In k (Pandas.columns data) ->
  exists v rest, labelled k data = (k, v) :: rest.
Proof.
  unfold labelled.
  induction data as [|[k' v'] data IH]; simpl; intro H; [contradiction|].
  destruct (String.eqb_spec k' k) as [->|D].
  - eauto.
  - destruct H as [H|H]; [congruence|]. apply IH. assumption.
Qed.

Lemma getitem_present (data : DataFrame) (keys : list string) :
  (forall k, In k keys -> In k (Pandas.columns data)) ->
  Pandas.getitem data keys
  = Ok (flat_map (fun k => labelled k data) keys).
Proof.
  intro H. unfold Pandas.getitem.
  rewrite (ScriptFacts.missing_nil data keys H). reflexivity.
Qed.

Lemma getitem_absent (data : DataFrame) (keys : list string) (k : string) :
  In k keys -> ~ In k (Pandas.columns data) ->
  Pandas.getitem data keys = Raise (KeyError (Pandas.missing data keys))
  /\ Pandas.missing data keys <> [].
Proof.
  intros Hk N. unfold Pandas.getitem.
  assert (Hm : In k (Pandas.missing data keys))
    by (apply ScriptFacts.missing_In; auto).
  destruct (Pandas.missing data keys); [contradiction|].
  split; [reflexivity | discriminate].
Qed.

(** With distinct labels, the selection has the labels asked for, in
    the order asked for, and only columns of the table. *)
Lemma selection_columns (data : DataFrame) (keys : list string) :
  NoDup (Pandas.columns data) ->
  (forall k, In k keys -> In k (Pandas.columns data)) ->
  Pandas.columns (flat_map (fun k => labelled k data) keys) = keys.
Proof.
  intros N. induction keys as [|k keys IH]; intro H; [reflexivity|].
  simpl. unfold Pandas.columns in *. rewrite map_app.
  rewrite IH by (intros k' Hk'; apply H; right; assumption).
  assert (Hk : In k (map fst data)) by (apply H; left; reflexivity).
  apply in_map_iff in Hk as ([k' v] & E & Hin). simpl in E. subst k'.
  rewrite (labelled_unique k v data N Hin). reflexivity.
Qed.

Lemma selection_incl (data : DataFrame) (keys : list string)
  (col : string * list string) :
  In col (flat_map (fun k => labelled k data) keys) -> In col data.
Proof.
  intro H. apply in_flat_map in H as (k & _ & H).
  unfold labelled in H. apply filter_In in H as [H _]. assumption.
Qed.

(** Two tables with the same columns, in any order, give the same
    selection. *)
Lemma selection_permutation (d1 d2 : DataFrame) (keys : list string) :
  Permutation d1 d2 -> NoDup (Pandas.columns d1) ->
  (forall k, In k keys -> In k (Pandas.columns d1)) ->
  flat_map (fun k => labelled k d1) keys
  = flat_map (fun k => labelled k d2) keys.
Proof.
  intros P N1.
  assert (N2 : NoDup (Pandas.columns d2)).
  { unfold Pandas.columns in *.
    apply (Permutation_NoDup (Permutation_map fst P)). assumption. }
  induction keys as [|k keys IH]; intro H; [reflexivity|].
  simpl. rewrite IH by (intros k' Hk'; apply H; right; assumption).
  assert (Hk : In k (Pandas.columns d1)) by (apply H; left; reflexivity).
  apply in_map_iff in Hk as ([k' v] & E & Hin). simpl in E. subst k'.
  rewrite (labelled_unique k v d1 N1 Hin).
  rewrite (labelled_unique k v d2 N2 (Permutation_in _ P Hin)).
  reflexivity.
Qed.

End SelectionFacts.

(** The labels of a given table are distinct. *)
Ltac distinct_labels :=
  simpl; repeat constructor; simpl; intuition discriminate.

(** C8: with a marker file, [clean] fails (pandas raises [KeyError] with
    the labels not found, and nothing is written) whenever a name of the
    normalized marker list is no column of the source table, and succeeds
    when all are columns: the table written has exactly the normalized
    marker columns. *)
Theorem inclusion_mode_selection (e : env) (g : globals) (input_file : string)
  (st : state) (data : DataFrame) :
  truthy (markers_arg (args g)) = true ->
  read_csv e input_file = Ok data ->
  ((exists m, In m (normalized (markers st))
              /\ ~ In m (Pandas.columns data)) ->
   exists absent st',
     clean e g input_file st = (Raise (KeyError absent), st')
     /\ files st' = files st
     /\ absent <> []
     /\ forall m, In m absent <->
                  In m (normalized (markers st))
                  /\ ~ In m (Pandas.columns data))
  /\ ((forall m, In m (normalized (markers st)) ->
                 In m (Pandas.columns data)) ->
      can_write e (clean_path g) = true ->
      exists st' cleaned,
        clean e g input_file st = (Ok tt, st')
        /\ files st' = (clean_path g, cleaned) :: files st
        /\ (forall col, In col cleaned -> In col data)
        /\ (NoDup (Pandas.columns data) ->
            Pandas.columns cleaned = normalized (markers st))).
Proof.
  intros Hm Hr.
  rewrite (ScriptFacts.clean_inclusion_run e g input_file st data Hr Hm).
  split.
  - intros (m & Hin & Hno).
    destruct (SelectionFacts.getitem_absent data _ m Hin Hno) as [E Hne].
    rewrite E. eexists. eexists. split; [reflexivity|].
    split; [reflexivity|]. split; [assumption|].
    intro k. apply ScriptFacts.missing_In.
  - intros Hall Hw.
    rewrite (SelectionFacts.getitem_present data _ Hall), Hw.
    eexists. eexists. split; [reflexivity|]. split; [reflexivity|]. split.
    + intro col. apply SelectionFacts.selection_incl.
    + intro N. apply SelectionFacts.selection_columns; assumption.
Qed.

Lemma inclusion_mode_selection_witness :
  (exists absent st',
      clean (Example.world ExecFailed) (Example.names (Some "markers.txt"))
        "exemplar3.csv" (Example.start ["CD3"])
      = (Raise (KeyError absent), st')
      /\ files st' = []
      /\ absent <> []
      /\ forall m, In m absent <->
                   In m ["CellID"; "CD3"]
                   /\ ~ In m (Pandas.columns Example.table3))
  /\ (exists st' cleaned,
         clean (Example.world ExecFailed) (Example.names (Some "markers.txt"))
           "exemplar2.csv" (Example.start ["CD3"])
         = (Ok tt, st')
         /\ files st' = [("./exemplar-clean.csv", cleaned)]
         /\ (forall col, In col cleaned -> In col Example.table2)
         /\ Pandas.columns cleaned = ["CellID"; "CD3"]).
Proof.
  split.
  - apply (proj1 (inclusion_mode_selection (Example.world ExecFailed)
                    (Example.names (Some "markers.txt")) "exemplar3.csv"
                    (Example.start ["CD3"]) Example.table3 eq_refl eq_refl)).
    exists "CellID". split; [left; reflexivity|].
    simpl. intros [H|[H|[]]]; discriminate H.
  - destruct (proj2 (inclusion_mode_selection (Example.world ExecFailed)
                       (Example.names (Some "markers.txt")) "exemplar2.csv"
                       (Example.start ["CD3"]) Example.table2 eq_refl eq_refl))
      as (st' & cleaned & Hrun & Hfiles & Hincl & Hcols).
    + simpl. intros m [<-|[<-|[]]]; auto.
    + reflexivity.
    + exists st', cleaned. repeat (split; [assumption|]).
      apply Hcols. distinct_labels.
Defined.

(** C10: with a marker file, the columns of the table written are in the
    order of the normalized marker list, identity column first, whatever
    the order of the columns of the source table: two source tables with
    the same columns in different orders give the same cleaned table. *)
Theorem inclusion_mode_order (e : env) (g : globals) (input1 input2 : string)
  (st : state) (data1 data2 : DataFrame) :
  truthy (markers_arg (args g)) = true ->
  read_csv e input1 = Ok data1 ->
  read_csv e input2 = Ok data2 ->
  Permutation data1 data2 ->
  NoDup (Pandas.columns data1) ->
  (forall m, In m (normalized (markers st)) -> In m (Pandas.columns data1)) ->
  can_write e (clean_path g) = true ->
  exists st1 st2 cleaned,
    clean e g input1 st = (Ok tt, st1)
    /\ clean e g input2 st = (Ok tt, st2)
    /\ files st1 = (clean_path g, cleaned) :: files st
    /\ files st2 = (clean_path g, cleaned) :: files st
    /\ Pandas.columns cleaned = normalized (markers st)
    /\ hd_error (Pandas.columns cleaned) = Some CELL_ID.
Proof.
  intros Hm H1 H2 P N Hall Hw.
  assert (Hall2 : forall m, In m (normalized (markers st)) ->
                            In m (Pandas.columns data2)).
  { intros m Hin. unfold Pandas.columns.
    apply (Permutation_in _ (Permutation_map fst P)). apply Hall. assumption. }
  rewrite (ScriptFacts.clean_inclusion_run e g input1 st data1 H1 Hm).
  rewrite (ScriptFacts.clean_inclusion_run e g input2 st data2 H2 Hm).
  rewrite (SelectionFacts.getitem_present data1 _ Hall).
  rewrite (SelectionFacts.getitem_present data2 _ Hall2).
  rewrite <- (SelectionFacts.selection_permutation data1 data2 _ P N Hall).
  rewrite Hw.
  eexists. eexists. eexists.
  split; [reflexivity|]. split; [reflexivity|]. split; [reflexivity|].
  split; [reflexivity|].
  rewrite (SelectionFacts.selection_columns data1 _ N Hall).
  split; reflexivity.
Qed.

Lemma inclusion_mode_order_witness :
  exists st1 st2 cleaned,
    clean (Example.world ExecFailed) (Example.names (Some "markers.txt"))
      "exemplar.csv" (Example.start ["CD8"; "CD3"]) = (Ok tt, st1)
    /\ clean (Example.world ExecFailed) (Example.names (Some "markers.txt"))
         "reversed.csv" (Example.start ["CD8"; "CD3"]) = (Ok tt, st2)
    /\ files st1 = [("./exemplar-clean.csv", cleaned)]
    /\ files st2 = [("./exemplar-clean.csv", cleaned)]
    /\ Pandas.columns cleaned = ["CellID"; "CD8"; "CD3"]
    /\ hd_error (Pandas.columns cleaned) = Some CELL_ID.
Proof.
  apply (inclusion_mode_order (Example.world ExecFailed)
           (Example.names (Some "markers.txt")) "exemplar.csv" "reversed.csv"
           (Example.start ["CD8"; "CD3"]) Example.table Example.table_reversed
           eq_refl eq_refl eq_refl).
  - apply Permutation_rev.
  - distinct_labels.
  - simpl. intros m [<-|[<-|[<-|[]]]]; auto 10.
  - reflexivity.
Defined.

(* ------------------------------------------------------------------ *)
(** ** The identity column *)

(** C7, as stated: cleaning would fail on every source table without the
    identity column, in both modes.  Without a marker file, the table
    with the columns [CD3] and [Area] is cleaned without an error, and
    the table written has neither an identity column. *)
Lemma identity_column_counterexample :
  ~ In CELL_ID (Pandas.columns Example.table3)
  /\ read_csv (Example.world ExecFailed) "exemplar3.csv" = Ok Example.table3
  /\ clean (Example.world ExecFailed) (Example.names None) "exemplar3.csv"
       (Example.start [])
     = (Ok tt,
        {| markers := [];
           stdout := ["Cleaning data...";
                      "Done. Cleaned data is in ./exemplar-clean.csv.csv."];
           files := [("./exemplar-clean.csv", [("CD3", Example.cells)])] |})
  /\ ~ In CELL_ID (Pandas.columns [("CD3", Example.cells)]).
Proof.
  split; [simpl; intros [H|[H|[]]]; discriminate H|].
  split; [reflexivity|]. split; [vm_compute; reflexivity|].
  simpl. intros [H|[]]. discriminate H.
Qed.

(** C7, amended: with a marker file, the table written has the identity
    column (as its first column) and cleaning fails whenever the source
    table lacks it ([KeyError] naming [CellID]); without a marker file,
    cleaning raises no error for a missing identity column and the table
    written has the identity column exactly when the source table has
    it. *)
Theorem identity_column (e : env) (g : globals) (input_file : string)
  (st : state) (data : DataFrame) :
  read_csv e input_file = Ok data ->
  (truthy (markers_arg (args g)) = true ->
   (~ In CELL_ID (Pandas.columns data) ->
    exists absent st',
      clean e g input_file st = (Raise (KeyError absent), st')
      /\ In CELL_ID absent)
   /\ (forall st',
         clean e g input_file st = (Ok tt, st') ->
         exists cleaned,
           files st' = (clean_path g, cleaned) :: files st
           /\ hd_error (Pandas.columns cleaned) = Some CELL_ID))
  /\ (truthy (markers_arg (args g)) = false ->
      can_write e (clean_path g) = true ->
      exists st' cleaned,
        clean e g input_file st = (Ok tt, st')
        /\ files st' = (clean_path g, cleaned) :: files st
        /\ (In CELL_ID (Pandas.columns cleaned)
            <-> In CELL_ID (Pandas.columns data))).
Proof.
  intro Hr. split.
  - intro Hm.
    rewrite (ScriptFacts.clean_inclusion_run e g input_file st data Hr Hm).
    split.
    + intro N.
      destruct (SelectionFacts.getitem_absent data (normalized (markers st))
                  CELL_ID (or_introl eq_refl) N) as [E _].
      rewrite E. eexists. eexists. split; [reflexivity|].
      apply ScriptFacts.missing_In. split; [left; reflexivity | assumption].
    + intros st' H.
      unfold Pandas.getitem in H.
      destruct (Pandas.missing data (normalized (markers st))) eqn:Emiss;
        [|discriminate H].
      destruct (can_write e (clean_path g)); [|discriminate H].
      injection H as <-. eexists. split; [reflexivity|].
      assert (Hin : In CELL_ID (Pandas.columns data)).
      { destruct (in_dec string_dec CELL_ID (Pandas.columns data)) as [Y|N];
          [assumption|].
        assert (X : In CELL_ID (Pandas.missing data (normalized (markers st))))
          by (apply ScriptFacts.missing_In; split;
              [left; reflexivity | assumption]).
        rewrite Emiss in X. contradiction. }
      destruct (SelectionFacts.labelled_head CELL_ID data Hin) as (v & rest & E).
      unfold normalized. simpl flat_map. fold (labelled CELL_ID data).
      rewrite E. reflexivity.
  - intros Hm Hw.
    rewrite (ScriptFacts.clean_exclusion_run e g input_file st data Hr Hm Hw).
    eexists. eexists. split; [reflexivity|]. split; [reflexivity|].
    unfold Pandas.columns. rewrite !in_map_iff. split.
    + intros (col & E & H). apply filter_In in H as [H _]. eauto.
    + intros (col & E & H). exists col. split; [assumption|].
      apply filter_In. split; [assumption|]. rewrite E. reflexivity.
Qed.

Lemma identity_column_witness :
  (exists absent st',
      clean (Example.world ExecFailed) (Example.names (Some "markers.txt"))
        "exemplar3.csv" (Example.start ["CD3"])
      = (Raise (KeyError absent), st')
      /\ In CELL_ID absent)
  /\ (exists st' cleaned,
         clean (Example.world ExecFailed) (Example.names None)
           "exemplar.csv" (Example.start []) = (Ok tt, st')
         /\ files st' = [("./exemplar-clean.csv", cleaned)]
         /\ (In CELL_ID (Pandas.columns cleaned)
             <-> In CELL_ID (Pandas.columns Example.table))).
Proof.
  split.
  - apply (proj1 (proj1 (identity_column (Example.world ExecFailed)
                           (Example.names (Some "markers.txt")) "exemplar3.csv"
                           (Example.start ["CD3"]) Example.table3 eq_refl)
                    eq_refl)).
    simpl. intros [H|[H|[]]]; discriminate H.
  - apply (proj2 (identity_column (Example.world ExecFailed)
                    (Example.names None) "exemplar.csv"
                    (Example.start []) Example.table eq_refl));
      reflexivity.
Defined.

(* ------------------------------------------------------------------ *)
(** ** The call of FastPG *)

(** C9, as stated: the call would fail when the output of the child
    process is no number.  A child process that exits with status 0 and
    prints [no modularity] makes [runFastPG] return normally, its result
    being [None]; the text is only printed. *)
Lemma cluster_invocation_counterexample :
  spec_numeric "no modularity" = false
  /\ runFastPG (Example.world (Exited 0 "no modularity")) (Example.names None)
       (Example.start [])
     = (Ok tt,
        {| markers := [];
           stdout := ["Running R script..."; "Modularity: no modularity";
                      "Done."];
           files := [] |}).
Proof. split; vm_compute; reflexivity. Qed.

(** C9, amended: when the child process exits with status 0, [runFastPG]
    returns nothing, whatever the process printed: the captured text is
    not parsed, and is printed after [Modularity: ] when verbose.  It
    fails when the child process exits with another status
    ([CalledProcessError]) and when the program cannot be started
    ([OSError]). *)
Theorem cluster_invocation (e : env) (g : globals) (st : state) :
  (forall out,
      run_process e (command e g) = Exited 0 out ->
      runFastPG e g st
      = (Ok tt,
         with_printed (if verbose (args g)
                       then [("Modularity: " ++ out)%string; "Done."]
                       else [])
           (with_printed (fastpg_banner g) st)))
  /\ (forall code out,
        run_process e (command e g) = Exited code out ->
        code <> 0%Z ->
        runFastPG e g st
        = (Raise (CalledProcessError code out),
           with_printed (fastpg_banner g) st))
  /\ (run_process e (command e g) = ExecFailed ->
      runFastPG e g st
      = (Raise (OSError "Rscript"), with_printed (fastpg_banner g) st)).
Proof.
  assert (Hp : when (verbose (args g)) (print "Running R script...") st
               = (Ok tt, with_printed (fastpg_banner g) st)).
  { unfold when, fastpg_banner, with_printed, print, ret.
    destruct (verbose (args g)); simpl; [reflexivity|].
    rewrite app_nil_r, ScriptFacts.state_eta. reflexivity. }
  unfold runFastPG. rewrite (ScriptFacts.bind_ok _ _ _ _ _ Hp).
  repeat split.
  - intros out H. unfold bind, check_output. rewrite H. simpl.
    unfold when, with_printed, fastpg_banner, print, ret, bind.
    destruct st as [ms printed written].
    destruct (verbose (args g)); simpl; rewrite ?app_nil_r, <- ?app_assoc;
      reflexivity.
  - intros code out H N. unfold bind, check_output. rewrite H.
    apply Z.eqb_neq in N. rewrite N. reflexivity.
  - intro H. unfold bind, check_output. rewrite H. reflexivity.
Qed.

Lemma cluster_invocation_witness :
  runFastPG (Example.world (Exited 0 "0.85")) (Example.names None)
    (Example.start [])
  = (Ok tt,
     with_printed ["Modularity: 0.85"; "Done."]
       (with_printed ["Running R script..."] (Example.start [])))
  /\ runFastPG (Example.world (Exited 1 "")) (Example.names None)
       (Example.start [])
     = (Raise (CalledProcessError 1 ""),
        with_printed ["Running R script..."] (Example.start []))
  /\ runFastPG (Example.world ExecFailed) (Example.names None)
       (Example.start [])
     = (Raise (OSError "Rscript"),
        with_printed ["Running R script..."] (Example.start [])).
Proof.
  split; [|split].
  - apply (proj1 (cluster_invocation (Example.world (Exited 0 "0.85"))
                    (Example.names None) (Example.start []))).
    reflexivity.
  - apply (proj1 (proj2 (cluster_invocation (Example.world (Exited 1 ""))
                           (Example.names None) (Example.start [])))).
    + reflexivity.
    + discriminate.
  - apply (proj2 (proj2 (cluster_invocation (Example.world ExecFailed)
                           (Example.names None) (Example.start [])))).
    reflexivity.
Defined.

(* ------------------------------------------------------------------ *)
(** ** More facts about Python strings *)

Module TextFacts.

Lemma length_app (a b : string) :
  String.length (a ++ b) = String.length a + String.length b.
Proof. induction a as [|c a IH]; simpl; [reflexivity | now rewrite IH]. Qed.

Lemma nochar_cons (c d : ascii) (s : string) :
  nochar c (String d s) = negb (Ascii.eqb d c) && nochar c s.
Proof. reflexivity. Qed.

Lemma nochar_app (c : ascii) (a b : string) :
  nochar c (a ++ b) = nochar c a && nochar c b.
Proof.
  induction a as [|d a IH]; [reflexivity|].
  simpl String.append. rewrite !nochar_cons, IH, andb_assoc. reflexivity.
Qed.

Lemma blank_cons (d : ascii) (s : string) :
  blank (String d s) = PyStr.isspace d && blank s.
Proof. reflexivity. Qed.

Lemma blank_nochar (c : ascii) (w : string) :
  PyStr.isspace c = false -> blank w = true -> nochar c w = true.
Proof.
  intro Hc. induction w as [|d w IH]; [reflexivity|].
  rewrite blank_cons, nochar_cons. intro H.
  apply andb_prop in H as [Hd Hw]. rewrite (IH Hw), andb_true_r.
  apply negb_true_iff, Ascii.eqb_neq. intros ->. congruence.
Qed.

(** *** [split] and [join] *)

Lemma split_cons (sep : ascii) (s : string) :
  exists h t, PyStr.split sep s = h :: t.
Proof.
  destruct s as [|c s]; simpl; [eauto|].
  destruct (Ascii.eqb c sep); [eauto|].
  destruct (PyStr.split sep s); eauto.
Qed.

Lemma split_nochar (sep : ascii) (s : string) :
  nochar sep s = true -> PyStr.split sep s = [s].
Proof.
  induction s as [|c s IH]; [reflexivity|].
  rewrite nochar_cons. intro H. apply andb_prop in H as [Hc Hs].
  apply negb_true_iff in Hc. simpl. rewrite Hc, (IH Hs). reflexivity.
Qed.

(** The pieces of [d ++ sep ++ f], for [f] without separator. *)
Lemma split_app (sep : ascii) (d f : string) :
  nochar sep f = true ->
  PyStr.split sep (d ++ String sep f) = PyStr.split sep d ++ [f].
Proof.
  intro Hf. induction d as [|c d IH]; simpl.
  - rewrite Ascii.eqb_refl, (split_nochar sep f Hf). reflexivity.
  - rewrite IH. destruct (Ascii.eqb c sep); [reflexivity|].
    destruct (split_cons sep d) as (h & t & E). rewrite E. reflexivity.
Qed.

(** Joining the pieces with the separator gives the string back. *)
Lemma join_split (sep : ascii) (s : string) :
  PyStr.join (String sep "") (PyStr.split sep s) = s.
Proof.
  induction s as [|c s IH]; [reflexivity|].
  simpl PyStr.split. destruct (split_cons sep s) as (h & t & E).
  rewrite E in *. destruct (Ascii.eqb_spec c sep) as [->|N].
  - change (PyStr.join (String sep "") ("" :: h :: t))
      with (String sep (PyStr.join (String sep "") (h :: t))).
    rewrite IH. reflexivity.
  - destruct t as [|h' t].
    + simpl in *. rewrite IH. reflexivity.
    + change (PyStr.join (String sep "") (String c h :: h' :: t))
        with (String c (PyStr.join (String sep "") (h :: h' :: t))).
      rewrite IH. reflexivity.
Qed.

Lemma split_pieces (sep : ascii) (s x : string) :
  In x (PyStr.split sep s) -> nochar sep x = true.
Proof.
  revert x. induction s as [|c s IH]; intros x; simpl.
  - intros [<-|[]]. reflexivity.
  - destruct (Ascii.eqb_spec c sep) as [->|N].
    + intros [<-|H]; [reflexivity | apply IH; assumption].
    + destruct (split_cons sep s) as (h & t & E). rewrite E in *.
      intros [<-|H].
      * rewrite nochar_cons, (IH h (or_introl eq_refl)), andb_true_r.
        apply negb_true_iff, Ascii.eqb_neq. assumption.
      * apply IH. right. assumption.
Qed.

Lemma last_snoc (l : list string) (x d : string) : last (l ++ [x]) d = x.
Proof. apply last_last. Qed.

(** *** [rfind] and slices *)

Lemma rfind_nochar (c : ascii) (s : string) :
  nochar c s = true -> PySlice.rfind c s = (-1)%Z.
Proof.
  induction s as [|d s IH]; [reflexivity|].
  rewrite nochar_cons. intro H. apply andb_prop in H as [Hd Hs].
  apply negb_true_iff in Hd. simpl. rewrite (IH Hs), Hd. reflexivity.
Qed.

Lemma rfind_last (c : ascii) (base ext : string) :
  nochar c ext = true ->
  PySlice.rfind c (base ++ String c ext) = Z.of_nat (String.length base).
Proof.
  intro He. induction base as [|d base IH].
  - simpl. rewrite (rfind_nochar c ext He), Ascii.eqb_refl. reflexivity.
  - simpl String.append. simpl PySlice.rfind. rewrite IH.
    destruct (Z.ltb_spec (Z.of_nat (String.length base)) 0); [lia|].
    simpl String.length. lia.
Qed.

Lemma substring_prefix (a b : string) :
  String.substring 0 (String.length a) (a ++ b) = a.
Proof.
  induction a as [|c a IH]; simpl.
  - destruct b; reflexivity.
  - rewrite IH. reflexivity.
Qed.

Lemma upto_prefix (a b : string) :
  PySlice.upto (Z.of_nat (String.length a)) (a ++ b) = a.
Proof.
  unfold PySlice.upto. rewrite length_app.
  destruct (Z.ltb_spec (Z.of_nat (String.length a)) 0); [lia|].
  rewrite Z.min_l by lia. rewrite Nat2Z.id. apply substring_prefix.
Qed.

Lemma upto_minus_one (body : string) (c : ascii) :
  PySlice.upto (-1) (body ++ String c "") = body.
Proof.
  unfold PySlice.upto. rewrite length_app. simpl String.length.
  change (-1 <? 0)%Z with true. cbv iota.
  replace (Z.max 0 (-1 + Z.of_nat (String.length body + 1)))
    with (Z.of_nat (String.length body)) by lia.
  rewrite Nat2Z.id. apply substring_prefix.
Qed.

Lemma last_char_snoc (body : string) (c : ascii) :
  PySlice.last_char (body ++ String c "") = Ok c.
Proof.
  induction body as [|d body IH]; [reflexivity|].
  simpl String.append. simpl PySlice.last_char. rewrite IH.
  destruct body; reflexivity.
Qed.

(** A string that is not empty ends with some character. *)
Lemma snoc_cases (s : string) :
  s = "" \/ exists body c, s = (body ++ String c "")%string.
Proof.
  induction s as [|d s IH]; [left; reflexivity|]. right.
  destruct IH as [->|(body & c & ->)].
  - exists "", d. reflexivity.
  - exists (String d body), c. reflexivity.
Qed.

End TextFacts.

(* ------------------------------------------------------------------ *)
(** ** File names and directories *)

(** X1: [getDataName] gives the file name without its directory and
    without its last extension: for a file name [base.ext] whose
    extension holds no dot, the result is [base], with or without a
    directory in front (so [d.tar.gz] gives [d.tar]). *)
Theorem getDataName_extension (dir base ext : string) :
  nochar "/" base = true ->
  nochar "/" ext = true ->
  nochar "." ext = true ->
  getDataName (base ++ "." ++ ext) = base
  /\ getDataName (dir ++ "/" ++ base ++ "." ++ ext) = base.
Proof.
  intros Hb He Hd.
  assert (Hf : nochar "/" (base ++ String "." ext) = true).
  { rewrite TextFacts.nochar_app, TextFacts.nochar_cons, Hb, He. reflexivity. }
  unfold getDataName. simpl String.append. split.
  - rewrite (TextFacts.split_nochar "/" _ Hf). simpl last.
    rewrite (TextFacts.rfind_last "." base ext Hd).
    apply TextFacts.upto_prefix.
  - rewrite (TextFacts.split_app "/" dir _ Hf), TextFacts.last_snoc.
    rewrite (TextFacts.rfind_last "." base ext Hd).
    apply TextFacts.upto_prefix.
Qed.

Lemma getDataName_extension_witness :
  getDataName "d.tar.gz" = "d.tar"
  /\ getDataName "data/run.1/d.tar.gz" = "d.tar".
Proof.
  apply (getDataName_extension "data/run.1" "d.tar" "gz"); reflexivity.
Defined.

(** X2: for a file name without a dot, [rfind] gives [-1] and the slice
    drops the last character of the name: [getDataName] returns the
    name without its last character, and the empty string for a path
    that ends with a slash. *)
Theorem getDataName_no_dot (dir body : string) (c : ascii) :
  nochar "/" (body ++ String c "") = true ->
  nochar "." (body ++ String c "") = true ->
  getDataName (body ++ String c "") = body
  /\ getDataName (dir ++ "/" ++ body ++ String c "") = body
  /\ getDataName (dir ++ "/") = "".
Proof.
  intros Hs Hd. unfold getDataName. simpl String.append. split; [|split].
  - rewrite (TextFacts.split_nochar "/" _ Hs). simpl last.
    rewrite (TextFacts.rfind_nochar "." _ Hd).
    apply TextFacts.upto_minus_one.
  - rewrite (TextFacts.split_app "/" dir _ Hs), TextFacts.last_snoc.
    rewrite (TextFacts.rfind_nochar "." _ Hd).
    apply TextFacts.upto_minus_one.
  - rewrite (TextFacts.split_app "/" dir "" eq_refl), TextFacts.last_snoc.
    reflexivity.
Qed.

Lemma getDataName_no_dot_witness :
  getDataName "exemplar" = "exempla"
  /\ getDataName "data.v2/exemplar" = "exempla"
  /\ getDataName "data.v2/" = "".
Proof.
  apply (getDataName_no_dot "data.v2" "exempla" "r"); reflexivity.
Defined.

(** X3: [get_path] gives the directory of the script: for a script path
    [d/f] where [f] holds no slash, the result is [d]. *)
Theorem get_path_directory (e : env) (d f : string) :
  script_realpath e = (d ++ "/" ++ f)%string ->
  nochar "/" f = true ->
  get_path e = d.
Proof.
  intros E Hf. unfold get_path. rewrite E. simpl String.append.
  rewrite (TextFacts.split_app "/" d f Hf), removelast_last.
  apply (TextFacts.join_split "/").
Qed.

Lemma get_path_directory_witness :
  get_path (Scenario.world ExecFailed) = "/app".
Proof.
  apply (get_path_directory (Scenario.world ExecFailed) "/app" "cluster.py");
    reflexivity.
Defined.

(** X4: the output directory is [.] when none is given; a given
    directory loses one final slash, and only one; a directory that does
    not end with a slash is taken as it is; the empty string raises
    [IndexError]. *)
Theorem output_dir_cases (a : Args) (st : state) :
  (output_arg a = None -> output_dir a st = (Ok ".", st))
  /\ (forall d, output_arg a = Some (d ++ "/")%string ->
                output_dir a st = (Ok d, st))
  /\ (forall body c, output_arg a = Some (body ++ String c "")%string ->
                     c <> "/"%char ->
                     output_dir a st = (Ok (body ++ String c "")%string, st))
  /\ (output_arg a = Some "" -> output_dir a st = (Raise IndexError, st)).
Proof.
  unfold output_dir. split; [|split; [|split]].
  - intros ->. reflexivity.
  - intros d ->. unfold bind, lift.
    rewrite TextFacts.last_char_snoc. simpl Ascii.eqb. cbv iota.
    rewrite TextFacts.upto_minus_one. reflexivity.
  - intros body c -> N. unfold bind, lift.
    rewrite TextFacts.last_char_snoc.
    apply Ascii.eqb_neq in N. rewrite N. reflexivity.
  - intros ->. reflexivity.
Qed.

Lemma output_dir_cases_witness :
  let s := Example.start [] in
  output_dir (Scenario.arguments None None None "x.csv" false) s = (Ok ".", s)
  /\ output_dir (Scenario.arguments (Some "out//") None None "x.csv" false) s
     = (Ok "out/", s)
  /\ output_dir (Scenario.arguments (Some "out") None None "x.csv" false) s
     = (Ok "out", s)
  /\ output_dir (Scenario.arguments (Some "") None None "x.csv" false) s
     = (Raise IndexError, s).
Proof.
  intro s. split; [|split; [|split]].
  - destruct (output_dir_cases
                (Scenario.arguments None None None "x.csv" false) s)
      as (R & _).
    apply R. reflexivity.
  - destruct (output_dir_cases
                (Scenario.arguments (Some "out//") None None "x.csv" false) s)
      as (_ & R & _).
    apply (R "out/"). reflexivity.
  - destruct (output_dir_cases
                (Scenario.arguments (Some "out") None None "x.csv" false) s)
      as (_ & _ & R & _).
    apply (R "ou" "t"%char); [reflexivity | discriminate].
  - destruct (output_dir_cases
                (Scenario.arguments (Some "") None None "x.csv" false) s)
      as (_ & _ & _ & R).
    apply R. reflexivity.
Defined.

(* ------------------------------------------------------------------ *)
(** ** Stripping, lines and the key of the config file *)

Module StripFacts.

Lemma lstrip_blank (w s : string) :
  blank w = true -> PyStr.lstrip (w ++ s) = PyStr.lstrip s.
Proof.
  induction w as [|c w IH]; [reflexivity|].
  rewrite TextFacts.blank_cons. intro H. apply andb_prop in H as [Hc Hw].
  simpl. rewrite Hc. apply IH. assumption.
Qed.

Lemma rstrip_all_blank (w : string) : blank w = true -> PyStr.rstrip w = "".
Proof.
  induction w as [|c w IH]; [reflexivity|].
  rewrite TextFacts.blank_cons. intro H. apply andb_prop in H as [Hc Hw].
  simpl. rewrite (IH Hw), Hc. reflexivity.
Qed.

Lemma rstrip_blank (s w : string) :
  blank w = true -> PyStr.rstrip (s ++ w) = PyStr.rstrip s.
Proof.
  intro Hw. induction s as [|c s IH].
  - simpl. apply rstrip_all_blank. assumption.
  - simpl. rewrite IH. reflexivity.
Qed.

Lemma lstrip_length (s : string) :
  String.length (PyStr.lstrip s) <= String.length s.
Proof.
  induction s as [|c s IH]; simpl; [lia|].
  destruct (PyStr.isspace c); simpl; lia.
Qed.

Lemma rstrip_length (s : string) :
  String.length (PyStr.rstrip s) <= String.length s.
Proof.
  induction s as [|c s IH]; simpl; [lia|].
  destruct (PyStr.rstrip s); [destruct (PyStr.isspace c)|]; simpl in *; lia.
Qed.

(** A string that [strip] leaves alone is empty or starts with a
    character that is no white space, and [rstrip] leaves it alone. *)
Lemma strip_fixed (m : string) :
  PyStr.strip m = m ->
  PyStr.rstrip m = m
  /\ (m = "" \/ exists c m', m = String c m' /\ PyStr.isspace c = false).
Proof.
  unfold PyStr.strip. intro H.
  assert (L : PyStr.lstrip m = m).
  { destruct m as [|c m]; [reflexivity|]. simpl in *.
    destruct (PyStr.isspace c); [|reflexivity].
    pose proof (rstrip_length (PyStr.lstrip m)) as H1.
    pose proof (lstrip_length m) as H2.
    rewrite H in H1. simpl in H1. lia. }
  rewrite L in H. split; [assumption|].
  destruct m as [|c m]; [left; reflexivity|]. right.
  exists c, m. split; [reflexivity|]. simpl in L.
  destruct (PyStr.isspace c); [|reflexivity].
  pose proof (lstrip_length m) as H2. rewrite L in H2. simpl in H2. lia.
Qed.

(** White space around a stripped string is taken away, and nothing
    else. *)
Lemma strip_padded (w1 m w2 : string) :
  blank w1 = true -> blank w2 = true -> PyStr.strip m = m ->
  PyStr.strip (w1 ++ m ++ w2) = m.
Proof.
  intros H1 H2 Hm. unfold PyStr.strip. rewrite (lstrip_blank w1 _ H1).
  destruct (strip_fixed m Hm) as [R [->|(c & m' & -> & Hc)]].
  - simpl String.append.
    replace (PyStr.lstrip w2) with (PyStr.lstrip (w2 ++ ""))
      by (now rewrite ReFacts.sapp_nil_r).
    rewrite (lstrip_blank w2 "" H2). reflexivity.
  - simpl String.append. simpl PyStr.lstrip. rewrite Hc.
    change (String c (m' ++ w2)) with (String c m' ++ w2)%string.
    rewrite (rstrip_blank _ w2 H2). assumption.
Qed.

Lemma lstrip_nochar (c : ascii) (s : string) :
  nochar c s = true -> nochar c (PyStr.lstrip s) = true.
Proof.
  induction s as [|d s IH]; [reflexivity|]. intro H. simpl.
  destruct (PyStr.isspace d); [|assumption].
  apply IH. rewrite TextFacts.nochar_cons in H.
  apply andb_prop in H as [_ H]. assumption.
Qed.

Lemma rstrip_nochar (c : ascii) (s : string) :
  nochar c s = true -> nochar c (PyStr.rstrip s) = true.
Proof.
  induction s as [|d s IH]; [reflexivity|].
  rewrite TextFacts.nochar_cons. intro H. apply andb_prop in H as [Hd Hs].
  specialize (IH Hs). simpl.
  destruct (PyStr.rstrip s) as [|x r].
  - destruct (PyStr.isspace d); [reflexivity|].
    rewrite TextFacts.nochar_cons, Hd. reflexivity.
  - rewrite TextFacts.nochar_cons, Hd, IH. reflexivity.
Qed.

Lemma rstrip_idem (s : string) : PyStr.rstrip (PyStr.rstrip s) = PyStr.rstrip s.
Proof.
  induction s as [|c s IH]; [reflexivity|].
  rewrite ConfigFacts.rstrip_cons.
  destruct (PyStr.rstrip s) as [|x r] eqn:E.
  - destruct (PyStr.isspace c) eqn:Hc; [reflexivity|].
    simpl. rewrite Hc. reflexivity.
  - rewrite ConfigFacts.rstrip_cons, IH. reflexivity.
Qed.

(** The first character of [rstrip s] is the first character of [s]. *)
Lemma rstrip_head (c : ascii) (s : string) :
  PyStr.isspace c = false ->
  exists r, PyStr.rstrip (String c s) = String c r.
Proof.
  intro Hc. rewrite ConfigFacts.rstrip_cons.
  destruct (PyStr.rstrip s); [rewrite Hc|]; eauto.
Qed.

Lemma lstrip_head (s : string) :
  PyStr.lstrip s = ""
  \/ exists c r, PyStr.lstrip s = String c r /\ PyStr.isspace c = false.
Proof.
  induction s as [|c s IH]; [left; reflexivity|]. simpl.
  destruct (PyStr.isspace c) eqn:Hc; [assumption|]. right. eauto.
Qed.

(** [strip] is idempotent. *)
Lemma strip_idem (s : string) : PyStr.strip (PyStr.strip s) = PyStr.strip s.
Proof.
  unfold PyStr.strip.
  destruct (lstrip_head s) as [E|(c & r & E & Hc)]; rewrite E.
  - reflexivity.
  - destruct (rstrip_head c r Hc) as (r' & E').
    rewrite E'. simpl PyStr.lstrip. rewrite Hc, <- E'. apply rstrip_idem.
Qed.

(** *** Lines *)

Lemma readlines_line (m rest : string) :
  nochar PyStr.newline m = true ->
  PyStr.readlines (m ++ String PyStr.newline rest)
  = (m ++ String PyStr.newline "")%string :: PyStr.readlines rest.
Proof.
  induction m as [|c m IH]; intro H.
  - simpl String.append. simpl. reflexivity.
  - rewrite TextFacts.nochar_cons in H. apply andb_prop in H as [Hc Hm].
    apply negb_true_iff in Hc. simpl String.append.
    simpl PyStr.readlines. rewrite Hc, (IH Hm). reflexivity.
Qed.

Lemma readlines_unlines (ls : list string) :
  Forall (fun l => nochar PyStr.newline l = true) ls ->
  PyStr.readlines (unlines ls)
  = map (fun l => (l ++ String PyStr.newline "")%string) ls.
Proof.
  induction 1 as [|l ls Hl _ IH]; [reflexivity|].
  simpl unlines. rewrite (readlines_line l _ Hl), IH. reflexivity.
Qed.

(** *** The operator [in] *)

Lemma prefix_app (sub s : string) :
  String.prefix sub s = true <-> exists post, s = (sub ++ post)%string.
Proof.
  revert s. induction sub as [|a sub IH]; intro s.
  - rewrite ConfigFacts.prefix_nil. split; [intros _; exists s | ]; reflexivity.
  - destruct s as [|c s].
    + simpl. split; [discriminate | intros (post & E); discriminate].
    + rewrite ConfigFacts.prefix_cons, andb_true_iff, Ascii.eqb_eq, IH.
      split.
      * intros [-> (post & ->)]. exists post. reflexivity.
      * intros (post & E). simpl in E. injection E as -> ->.
        split; [reflexivity | exists post; reflexivity].
Qed.

(** [sub in s] holds exactly when [sub] occurs somewhere in [s]. *)
Lemma contains_app (sub s : string) :
  PyStr.contains sub s = true <->
  exists pre post, s = (pre ++ sub ++ post)%string.
Proof.
  induction s as [|c s IH].
  - rewrite ConfigFacts.contains_unfold, orb_false_r, prefix_app. split.
    + intros (post & E). exists "", post. assumption.
    + intros (pre & post & E). destruct pre; simpl in E;
        [exists post; assumption | discriminate].
  - rewrite ConfigFacts.contains_unfold, orb_true_iff, prefix_app, IH. split.
    + intros [(post & E)|(pre & post & ->)].
      * exists "", post. assumption.
      * exists (String c pre), post. reflexivity.
    + intros (pre & post & E). destruct pre as [|d pre]; simpl in E.
      * left. exists post. assumption.
      * right. injection E as _ ->. exists pre, post. reflexivity.
Qed.

End StripFacts.

(* ------------------------------------------------------------------ *)
(** ** Reading the marker file and the config file *)

Module ReadingFacts.

Lemma last_In (h : string) (t : list string) (d : string) :
  In (last (h :: t) d) (h :: t).
Proof.
  revert h. induction t as [|x t IH]; intro h; [left; reflexivity|].
  right. apply (IH x).
Qed.

(** The value taken from a line holds no colon and is stripped. *)
Lemma value_of_shape (l : string) :
  nochar ":" (value_of l) = true /\ PyStr.strip (value_of l) = value_of l.
Proof.
  unfold value_of. split; [|apply StripFacts.strip_idem].
  unfold PyStr.strip.
  apply StripFacts.rstrip_nochar, StripFacts.lstrip_nochar.
  destruct (TextFacts.split_cons ":" l) as (h & t & E). rewrite E.
  apply (TextFacts.split_pieces ":" l). rewrite E. apply last_In.
Qed.

(** What the loop of [readConfig] ends with was there before or comes
    from a line. *)
Lemma loop_value (lines : list string) :
  forall acc v,
    readConfig_loop lines acc = Some v ->
    acc = Some v \/ exists l, In l lines /\ v = value_of l.
Proof.
  induction lines as [|l lines IH]; intros acc v H.
  - left. assumption.
  - rewrite ConfigFacts.loop_step in H.
    destruct (IH _ _ H) as [E|(l' & Hin & E)].
    + destruct (has_key l).
      * right. exists l. split; [left; reflexivity|]. congruence.
      * left. assumption.
    + right. exists l'. split; [right; assumption | assumption].
Qed.

(** The value of a line [...transform: v], white space around [v]
    apart. *)
Lemma value_of_key_line (pre w1 v w2 : string) :
  blank w1 = true -> blank w2 = true ->
  PyStr.strip v = v -> nochar ":" v = true ->
  value_of (pre ++ "transform:" ++ w1 ++ v ++ w2) = v.
Proof.
  intros H1 H2 Hs Hv. unfold value_of.
  replace (pre ++ "transform:" ++ w1 ++ v ++ w2)%string
    with ((pre ++ "transform") ++ String ":" (w1 ++ v ++ w2))%string
    by (rewrite ReFacts.sapp_assoc; reflexivity).
  rewrite TextFacts.split_app, TextFacts.last_snoc.
  - apply StripFacts.strip_padded; assumption.
  - rewrite !TextFacts.nochar_app, Hv.
    rewrite (TextFacts.blank_nochar ":" w1 eq_refl H1).
    rewrite (TextFacts.blank_nochar ":" w2 eq_refl H2). reflexivity.
Qed.

Lemma strip_blank (l : string) : blank l = true -> PyStr.strip l = "".
Proof.
  intro H. unfold PyStr.strip.
  replace (PyStr.lstrip l) with (PyStr.lstrip (l ++ ""))
    by (now rewrite ReFacts.sapp_nil_r).
  rewrite (StripFacts.lstrip_blank l "" H). reflexivity.
Qed.

Lemma remove_first_other (x y : string) (l : list string) :
  In x l -> x <> y -> In x (remove_first y l).
Proof.
  induction l as [|z l IH]; simpl; intros H N; [contradiction|].
  destruct (String.eqb_spec z y) as [->|D].
  - destruct H as [H|H]; [congruence | assumption].
  - destruct H as [H|H]; [left; assumption | right; auto].
Qed.

Lemma get_markers_run (e : env) (f contents : string) (st : state) :
  open_read e f = Some contents ->
  get_markers e f st
  = (Ok (map PyStr.strip (PyStr.readlines contents)), st).
Proof.
  intro H. unfold get_markers, open_file, bind. rewrite H. reflexivity.
Qed.

End ReadingFacts.

(** X5: [get_markers] fails with [OSError] when the marker file cannot
    be opened; otherwise it returns one marker per line, each stripped;
    a file that lists markers one per line, each without surrounding
    white space, is read back as that list. *)
Theorem get_markers_round_trip (e : env) (f : string) (st : state) :
  (open_read e f = None ->
   get_markers e f st = (Raise (OSError f), st))
  /\ (forall contents,
        open_read e f = Some contents ->
        exists ms,
          get_markers e f st = (Ok ms, st)
          /\ List.length ms = List.length (PyStr.readlines contents)
          /\ Forall (fun m => PyStr.strip m = m) ms)
  /\ (forall ms,
        open_read e f = Some (unlines ms) ->
        Forall (fun m => nochar PyStr.newline m = true
                         /\ PyStr.strip m = m) ms ->
        get_markers e f st = (Ok ms, st)).
Proof.
  split; [|split].
  - intro H. unfold get_markers, open_file, bind. rewrite H. reflexivity.
  - intros contents H. rewrite (ReadingFacts.get_markers_run e f contents st H).
    eexists. split; [reflexivity|]. split; [apply length_map|].
    apply Forall_map, Forall_forall. intros l _. apply StripFacts.strip_idem.
  - intros ms H F. rewrite (ReadingFacts.get_markers_run e f _ st H).
    rewrite StripFacts.readlines_unlines
      by (apply (Forall_impl _ (fun m Hm => proj1 Hm) F)).
    rewrite map_map.
    assert (E : map (fun m => PyStr.strip (m ++ String PyStr.newline "")) ms
                = map (fun m => m) ms).
    { apply map_ext_in. intros m Hm.
      rewrite Forall_forall in F. destruct (F m Hm) as [_ Hs].
      apply (StripFacts.strip_padded "" m (String PyStr.newline ""));
        [reflexivity | reflexivity | assumption]. }
    rewrite E, map_id. reflexivity.
Qed.

Lemma get_markers_round_trip_witness :
  get_markers (Scenario.world ExecFailed) "absent.txt" (Example.start [])
  = (Raise (OSError "absent.txt"), Example.start [])
  /\ get_markers (Scenario.world ExecFailed) "markers.txt" (Example.start [])
     = (Ok ["CD3"; "CD8"], Example.start []).
Proof.
  split.
  - apply (proj1 (get_markers_round_trip (Scenario.world ExecFailed)
                    "absent.txt" (Example.start []))).
    reflexivity.
  - apply (proj2 (proj2 (get_markers_round_trip (Scenario.world ExecFailed)
                           "markers.txt" (Example.start [])))).
    + reflexivity.
    + repeat constructor.
Defined.

(** X6: a blank line in the marker file becomes the empty marker, and
    [clean] then fails with a [KeyError] that names it, without writing
    a file, unless the table has a column with an empty label. *)
Theorem blank_marker_line (e : env) (g : globals) (input_file : string)
  (st : state) (data : DataFrame) (f contents l : string) :
  markers_arg (args g) = Some f ->
  f <> "" ->
  open_read e f = Some contents ->
  In l (PyStr.readlines contents) ->
  blank l = true ->
  read_csv e input_file = Ok data ->
  ~ In "" (Pandas.columns data) ->
  exists st1 absent st2,
    load_markers e (args g) st = (Ok tt, st1)
    /\ In "" (markers st1)
    /\ clean e g input_file st1 = (Raise (KeyError absent), st2)
    /\ In "" absent
    /\ files st2 = files st.
Proof.
  intros Hm Hf Ho Hl Hb Hr Hn.
  assert (Ht : truthy (markers_arg (args g)) = true).
  { rewrite Hm. simpl. apply negb_true_iff, String.eqb_neq. assumption. }
  set (ms := map PyStr.strip (PyStr.readlines contents)).
  assert (Hin : In "" ms).
  { rewrite <- (ReadingFacts.strip_blank l Hb). apply in_map. assumption. }
  exists (with_markers ms st).
  assert (Hload : load_markers e (args g) st = (Ok tt, with_markers ms st)).
  { unfold load_markers. rewrite Hm.
    rewrite (ScriptFacts.bind_ok _ _ _ _ _
               (ReadingFacts.get_markers_run e f contents st Ho)).
    reflexivity. }
  rewrite (ScriptFacts.clean_inclusion_run e g input_file
             (with_markers ms st) data Hr Ht).
  assert (Hk : In "" (normalized ms)).
  { right. apply ReadingFacts.remove_first_other; [assumption | discriminate]. }
  destruct (SelectionFacts.getitem_absent data (normalized ms) "" Hk Hn)
    as [E _].
  simpl markers. rewrite E.
  eexists. eexists. split; [exact Hload|]. split; [exact Hin|].
  split; [reflexivity|]. split; [|reflexivity].
  apply ScriptFacts.missing_In. split; assumption.
Qed.

Lemma blank_marker_line_witness :
  exists st1 absent st2,
    load_markers (Scenario.world ExecFailed)
      (Scenario.arguments None (Some "blank.txt") None "data/exemplar.csv" false)
      (Example.start [])
    = (Ok tt, st1)
    /\ In "" (markers st1)
    /\ clean (Scenario.world ExecFailed)
         (main_globals
            (Scenario.arguments None (Some "blank.txt") None
               "data/exemplar.csv" false) "." "auto")
         "data/exemplar.csv" st1
       = (Raise (KeyError absent), st2)
    /\ In "" absent
    /\ files st2 = [].
Proof.
  apply (blank_marker_line (Scenario.world ExecFailed)
           (main_globals
              (Scenario.arguments None (Some "blank.txt") None
                 "data/exemplar.csv" false) "." "auto")
           "data/exemplar.csv" (Example.start []) Example.table
           "blank.txt" Scenario.marker_text_blank
           ("  " ++ String PyStr.newline "")%string).
  - reflexivity.
  - discriminate.
  - reflexivity.
  - right. left. reflexivity.
  - reflexivity.
  - reflexivity.
  - simpl. intuition discriminate.
Defined.

(** X10: a mode that [readConfig] returns holds no colon and has no
    white space around it, whatever the config file; reading changes
    nothing in the state. *)
Theorem config_value_shape (e : env) (file : string) (st st' : state)
  (v : string) :
  readConfig e file st = (Ok v, st') ->
  nochar ":" v = true /\ PyStr.strip v = v /\ st' = st.
Proof.
  intro H. destruct (open_read e file) as [contents|] eqn:Ho.
  - rewrite (ConfigFacts.readConfig_run e file contents st Ho) in H.
    destruct (readConfig_loop (PyStr.readlines contents) None) as [v'|] eqn:E;
      [|discriminate H].
    injection H as -> ->.
    destruct (ReadingFacts.loop_value _ _ _ E) as [D|(l & _ & ->)];
      [discriminate D|].
    destruct (ReadingFacts.value_of_shape l) as [H1 H2]. auto.
  - unfold readConfig, open_file, bind in H. rewrite Ho in H. discriminate H.
Qed.

Lemma config_value_shape_witness :
  nochar ":" "false" = true /\ PyStr.strip "false" = "false"
  /\ Example.start [] = Example.start [].
Proof.
  apply (config_value_shape (Scenario.world ExecFailed) "config.yml"
           (Example.start []) (Example.start []) "false").
  reflexivity.
Defined.

(** X11: a line that holds [transform:], after any text, followed by a
    value without colon, with any white space around the value, gives
    that value when no later line holds the key. *)
Theorem config_round_trip (e : env) (file contents : string) (st : state)
  (before behind : list string) (pre w1 v w2 : string) :
  open_read e file = Some contents ->
  PyStr.readlines contents
  = before ++ (pre ++ "transform:" ++ w1 ++ v ++ w2)%string :: behind ->
  (forall l', In l' behind -> has_key l' = false) ->
  blank w1 = true -> blank w2 = true ->
  PyStr.strip v = v -> nochar ":" v = true ->
  readConfig e file st = (Ok v, st).
Proof.
  intros Ho E Hb H1 H2 Hs Hv.
  rewrite (ConfigFacts.readConfig_run e file contents st Ho), E.
  rewrite (ConfigFacts.loop_last_key before _ behind None); [|
    apply StripFacts.contains_app; exists pre, (w1 ++ v ++ w2)%string;
    reflexivity | assumption].
  rewrite (ReadingFacts.value_of_key_line pre w1 v w2 H1 H2 Hs Hv).
  reflexivity.
Qed.

Lemma config_round_trip_witness :
  readConfig (Scenario.world ExecFailed) "config.yml" (Example.start [])
  = (Ok "false", Example.start []).
Proof.
  apply (config_round_trip (Scenario.world ExecFailed) "config.yml"
           Scenario.config_text (Example.start [])
           ["neighbors: 30" ++ String PyStr.newline ""]%string
           ["threads: 1" ++ String PyStr.newline ""]%string
           "  no_" " " "false" ("  " ++ String PyStr.newline "")%string).
  - reflexivity.
  - reflexivity.
  - simpl. intros l' [<-|[]]. reflexivity.
  - reflexivity.
  - reflexivity.
  - reflexivity.
  - reflexivity.
Defined.

(** X12: [readConfig] returns a mode exactly when [transform:] occurs
    somewhere in some line of the file, be it inside a longer key or
    after other text; otherwise it raises. *)
Theorem config_key_anywhere (e : env) (file contents : string) (st : state) :
  open_read e file = Some contents ->
  ((exists v, readConfig e file st = (Ok v, st))
   <-> (exists l pre post,
           In l (PyStr.readlines contents)
           /\ l = (pre ++ "transform:" ++ post)%string))
  /\ ((forall l pre post, In l (PyStr.readlines contents) ->
                          l <> (pre ++ "transform:" ++ post)%string) ->
      readConfig e file st = (Raise (UnboundLocalError "transform"), st)).
Proof.
  intro Ho. rewrite (ConfigFacts.readConfig_run e file contents st Ho).
  split; [split|].
  - intros (v & H).
    destruct (existsb has_key (PyStr.readlines contents)) eqn:X.
    + apply existsb_exists in X as (l & Hin & Hk).
      apply StripFacts.contains_app in Hk as (pre & post & E).
      exists l, pre, post. auto.
    + rewrite ConfigFacts.loop_no_key in H; [discriminate H|].
      intros l Hin. destruct (has_key l) eqn:K; [|reflexivity].
      assert (Y : existsb has_key (PyStr.readlines contents) = true)
        by (apply existsb_exists; eauto).
      congruence.
  - intros (l & pre & post & Hin & E).
    destruct (readConfig_loop (PyStr.readlines contents) None) as [v|] eqn:L.
    + exists v. reflexivity.
    + elim (ConfigFacts.loop_assigned (PyStr.readlines contents) None);
        [|assumption].
      right. exists l. split; [assumption|].
      apply StripFacts.contains_app. eauto.
  - intro N. rewrite ConfigFacts.loop_no_key; [reflexivity|].
    intros l Hin. destruct (has_key l) eqn:K; [|reflexivity].
    apply StripFacts.contains_app in K as (pre & post & E).
    elim (N l pre post Hin E).
Qed.

Lemma config_key_anywhere_witness :
  exists v,
    readConfig (Scenario.world ExecFailed) "config.yml" (Example.start [])
    = (Ok v, Example.start []).
Proof.
  apply (proj1 (config_key_anywhere (Scenario.world ExecFailed) "config.yml"
                  Scenario.config_text (Example.start []) eq_refl)).
  exists ("  no_transform: false  " ++ String PyStr.newline "")%string,
    "  no_", (" false  " ++ String PyStr.newline "")%string.
  split; [right; left; reflexivity | reflexivity].
Defined.

(* ------------------------------------------------------------------ *)
(** ** The default patterns as prefixes *)

Module PrefixFacts.
Import Re.

Lemma match_nullable (r : regex) (s : string) :
  nullable r = true -> match_ r s = true.
Proof. intro H. destruct s; simpl; rewrite H; reflexivity. Qed.

Lemma match_void (s : string) : forall r, match_ (Cat Void r) s = false.
Proof. induction s as [|c s IH]; intro r; simpl; [reflexivity | apply IH]. Qed.

Lemma match_alt (s : string) :
  forall a b, match_ (Alt a b) s = match_ a s || match_ b s.
Proof.
  induction s as [|c s IH]; intros a b; simpl.
  - rewrite !orb_false_r. reflexivity.
  - rewrite IH.
    destruct (nullable a), (nullable b), (match_ (deriv c a) s); reflexivity.
Qed.

Lemma match_cat_eps (s : string) (r : regex) :
  match_ (Cat Eps r) s = match_ r s.
Proof.
  destruct s as [|c s]; simpl; [reflexivity|].
  rewrite match_alt, match_void. reflexivity.
Qed.

(** A word followed by something that may be empty matches the names
    that start with the word. *)
Lemma match_word (tail : regex) :
  nullable tail = true ->
  forall w s, match_ (word_re w tail) s = String.prefix w s.
Proof.
  intro Ht. induction w as [|a w IH]; intro s.
  - rewrite ConfigFacts.prefix_nil. apply match_nullable. assumption.
  - destruct s as [|c s]; [reflexivity|].
    rewrite ConfigFacts.prefix_cons. simpl.
    destruct (Ascii.eqb a c).
    + rewrite match_cat_eps. apply IH.
    + apply match_void.
Qed.

Lemma re_match_prefix (p w : string) (tail : regex) :
  compile p = Some (word_re w tail) ->
  nullable tail = true ->
  forall name, re_match p name = String.prefix w name.
Proof.
  intros E Ht name. unfold re_match. rewrite E. apply match_word. assumption.
Qed.

(** The fifteen patterns before the last one: a word, or a word and
    [.*]. *)
Lemma excluded_prefixes (name : string) :
  excluded name
  = starts_with_any default_prefixes name || re_match antibody_pattern name.
Proof.
  unfold excluded, starts_with_any, FEATURES_TO_REMOVE, default_prefixes.
  cbn [existsb].
  change antibody_pattern with "A\d{3}.*".
  rewrite (re_match_prefix "X_centroid" "X_centroid" Eps eq_refl eq_refl).
  rewrite (re_match_prefix "Y_centroid" "Y_centroid" Eps eq_refl eq_refl).
  rewrite (re_match_prefix "column_centroid" "column_centroid" Eps
             eq_refl eq_refl).
  rewrite (re_match_prefix "row_centroid" "row_centroid" Eps eq_refl eq_refl).
  rewrite (re_match_prefix "Area" "Area" Eps eq_refl eq_refl).
  rewrite (re_match_prefix "MajorAxisLength" "MajorAxisLength" Eps
             eq_refl eq_refl).
  rewrite (re_match_prefix "MinorAxisLength" "MinorAxisLength" Eps
             eq_refl eq_refl).
  rewrite (re_match_prefix "Eccentricity" "Eccentricity" Eps eq_refl eq_refl).
  rewrite (re_match_prefix "Solidity" "Solidity" Eps eq_refl eq_refl).
  rewrite (re_match_prefix "Extent" "Extent" Eps eq_refl eq_refl).
  rewrite (re_match_prefix "Orientation" "Orientation" Eps eq_refl eq_refl).
  rewrite (re_match_prefix "DNA.*" "DNA" (Cat (Star Dot) Eps) eq_refl eq_refl).
  rewrite (re_match_prefix "Hoechst.*" "Hoechst" (Cat (Star Dot) Eps)
             eq_refl eq_refl).
  rewrite (re_match_prefix "DAP.*" "DAP" (Cat (Star Dot) Eps) eq_refl eq_refl).
  rewrite (re_match_prefix "AF.*" "AF" (Cat (Star Dot) Eps) eq_refl eq_refl).
  rewrite !orb_false_r, <- !orb_assoc. reflexivity.
Qed.

End PrefixFacts.

(** X9: without a marker file a column is dropped exactly when its label
    starts with one of the fifteen words [X_centroid], ..., [Orientation],
    [DNA], [Hoechst], [DAP], [AF], or with [A] and three digits.  The
    names of the morphological features act as prefixes too: a label
    that only starts with [Area] or [Extent] is dropped. *)
Theorem default_filter_prefixes (name : string) :
  excluded name = true <->
  (exists w rest, In w default_prefixes /\ name = (w ++ rest)%string)
  \/ (exists d1 d2 d3 rest,
         name = String "A" (String d1 (String d2 (String d3 rest)))
         /\ PyStr.isdigit d1 = true /\ PyStr.isdigit d2 = true
         /\ PyStr.isdigit d3 = true).
Proof.
  rewrite PrefixFacts.excluded_prefixes, orb_true_iff.
  rewrite AntibodyFacts.antibody_names.
  unfold starts_with_any. rewrite existsb_exists.
  split; (intros [H|H]; [left | right; exact H]).
  - destruct H as (w & Hin & Hp).
    apply StripFacts.prefix_app in Hp as (rest & E). exists w, rest. auto.
  - destruct H as (w & rest & Hin & E). exists w. split; [assumption|].
    apply StripFacts.prefix_app. exists rest. assumption.
Qed.

(* ------------------------------------------------------------------ *)
(** ** Cleaning twice *)

Module AgainFacts.

Lemma remove_first_perm (x : string) (l : list string) :
  In x l -> Permutation l (x :: remove_first x l).
Proof.
  induction l as [|y l IH]; simpl; intro H; [contradiction|].
  destruct (String.eqb_spec y x) as [->|D].
  - apply Permutation_refl.
  - destruct H as [H|H]; [congruence|].
    apply Permutation_trans with (y :: x :: remove_first x l).
    + apply perm_skip. apply IH. assumption.
    + apply perm_swap.
  Qed.

Lemma filter_twice {A} (f : A -> bool) (l : list A) :
  filter f (filter f l) = filter f l.
Proof.
  induction l as [|x l IH]; [reflexivity|]. simpl.
  destruct (f x) eqn:E; simpl; [rewrite E, IH|]; auto.
Qed.

End AgainFacts.

(** X7: putting the identity column first is idempotent, keeps every
    marker of the list, once each ([CellID] being added only when it was
    not there), and touches neither the output nor the files. *)
Theorem normalize_markers_idempotent (st : state) :
  exists st1,
    normalize_markers st = (Ok tt, st1)
    /\ normalize_markers st1 = (Ok tt, st1)
    /\ hd_error (markers st1) = Some CELL_ID
    /\ stdout st1 = stdout st /\ files st1 = files st
    /\ (In CELL_ID (markers st) -> Permutation (markers st) (markers st1))
    /\ (~ In CELL_ID (markers st) ->
        Permutation (CELL_ID :: markers st) (markers st1)).
Proof.
  exists (with_markers (normalized (markers st)) st).
  split; [apply ScriptFacts.normalize_markers_run|].
  split.
  { rewrite ScriptFacts.normalize_markers_run. reflexivity. }
  split; [reflexivity|]. split; [reflexivity|]. split; [reflexivity|].
  simpl. unfold normalized. split.
  - apply AgainFacts.remove_first_perm.
  - intro N. rewrite ScriptFacts.remove_first_notin by assumption.
    apply Permutation_refl.
Qed.

Lemma normalize_markers_idempotent_witness :
  exists st1,
    normalize_markers (Example.start ["CD3"; "CellID"]) = (Ok tt, st1)
    /\ normalize_markers st1 = (Ok tt, st1)
    /\ Permutation ["CD3"; "CellID"] (markers st1).
Proof.
  destruct (normalize_markers_idempotent (Example.start ["CD3"; "CellID"]))
    as (st1 & H1 & H2 & _ & _ & _ & P & _).
  exists st1. split; [exact H1|]. split; [exact H2|].
  apply P. right. left. reflexivity.
Defined.

(** X8: cleaning without a marker file is idempotent: when the table it
    wrote is cleaned again, the same table is written. *)
Theorem exclusion_mode_idempotent (e : env) (g : globals) (input1 : string)
  (st : state) (data : DataFrame) :
  truthy (markers_arg (args g)) = false ->
  read_csv e input1 = Ok data ->
  can_write e (clean_path g) = true ->
  exists st1 cleaned,
    clean e g input1 st = (Ok tt, st1)
    /\ files st1 = (clean_path g, cleaned) :: files st
    /\ forall input2 st2,
         read_csv e input2 = Ok cleaned ->
         exists st3,
           clean e g input2 st2 = (Ok tt, st3)
           /\ files st3 = (clean_path g, cleaned) :: files st2.
Proof.
  intros Hm Hr Hw.
  rewrite (ScriptFacts.clean_exclusion_run e g input1 st data Hr Hm Hw).
  eexists. eexists. split; [reflexivity|]. split; [reflexivity|].
  intros input2 st2 Hr2.
  rewrite (ScriptFacts.clean_exclusion_run e g input2 st2 _ Hr2 Hm Hw).
  eexists. split; [reflexivity|].
  simpl. rewrite AgainFacts.filter_twice. reflexivity.
Qed.

Lemma exclusion_mode_idempotent_witness :
  let a := Scenario.arguments (Some "out") None None "data/exemplar.csv" false in
  let g := main_globals a "out" "auto" in
  exists st1 st3,
    clean (Scenario.world ExecFailed) g "data/exemplar.csv" (Example.start [])
    = (Ok tt, st1)
    /\ files st1 = [("out/exemplar-clean.csv", Scenario.cleaned)]
    /\ clean (Scenario.world ExecFailed) g "out/exemplar-clean.csv" st1
       = (Ok tt, st3)
    /\ files st3 = ("out/exemplar-clean.csv", Scenario.cleaned) :: files st1.
Proof.
  intros a g.
  destruct (exclusion_mode_idempotent (Scenario.world ExecFailed) g
              "data/exemplar.csv" (Example.start []) Example.table
              eq_refl eq_refl eq_refl)
    as (st1 & cleaned & H1 & F1 & Again).
  assert (E : cleaned = Scenario.cleaned).
  { vm_compute in H1. injection H1 as <-. vm_compute in F1.
    injection F1 as <-. reflexivity. }
  subst cleaned.
  destruct (Again "out/exemplar-clean.csv" st1 eq_refl) as (st3 & H3 & F3).
  exists st1, st3. auto.
Defined.

(* ------------------------------------------------------------------ *)
(** ** What [clean] does in every case *)

Module CleanFacts.

Section Cases.

Variables (e : env) (g : globals) (input_file : string) (st : state).

Lemma clean_read_failure (x : exn) :
  read_csv e input_file = Raise x ->
  clean e g input_file st = (Raise x, with_printed (clean_banner g) st).
Proof.
  intro Hr. unfold clean.
  rewrite (ScriptFacts.bind_ok _ _ _ _ _
             (ScriptFacts.clean_banner_run g st)).
  apply ScriptFacts.bind_raise. unfold lift. rewrite Hr. reflexivity.
Qed.

Lemma clean_exclusion_unwritable (data : DataFrame) :
  read_csv e input_file = Ok data ->
  truthy (markers_arg (args g)) = false ->
  can_write e (clean_path g) = false ->
  clean e g input_file st
  = (Raise (OSError (write_error e (clean_path g))), with_printed (clean_banner g) st).
Proof.
  intros Hr Hm Hw.
  destruct (ScriptFacts.collect_columns_ok (Pandas.columns data)
              FEATURES_TO_REMOVE [])
    as (l & El & Hl); [exact ScriptFacts.features_compile|].
  assert (Hmiss : Pandas.missing data l = []).
  { apply ScriptFacts.missing_nil. intros k Hk.
    apply Hl in Hk as [[]|[Hk _]]. assumption. }
  unfold clean. rewrite Hm.
  rewrite (ScriptFacts.bind_ok _ _ _ _ _
             (ScriptFacts.clean_banner_run g st)).
  rewrite (ScriptFacts.bind_ok (lift (read_csv e input_file)) _ _ data _)
    by (unfold lift; rewrite Hr; reflexivity).
  unfold bind, lift, Pandas.drop, to_csv. fold (clean_path g).
  rewrite El, Hmiss, Hw. reflexivity.
Qed.

(** The state before the table is written, and the two ways [clean]
    ends. *)
Lemma clean_shape :
  exists st1,
    stdout st1 = stdout st ++ clean_banner g
    /\ files st1 = files st
    /\ (truthy (markers_arg (args g)) = false -> markers st1 = markers st)
    /\ ((exists x, clean e g input_file st = (Raise x, st1))
        \/ (exists cleaned,
               can_write e (clean_path g) = true
               /\ clean e g input_file st
                  = (Ok tt, with_printed (clean_done g)
                              (with_file (clean_path g) cleaned st1)))).
Proof.
  destruct (read_csv e input_file) as [data|x] eqn:Hr.
  - destruct (truthy (markers_arg (args g))) eqn:Hm.
    + exists (with_markers (normalized (markers st))
                (with_printed (clean_banner g) st)).
      split; [reflexivity|]. split; [reflexivity|].
      split; [discriminate|].
      rewrite (ScriptFacts.clean_inclusion_run e g input_file st data Hr Hm).
      destruct (Pandas.getitem data (normalized (markers st))) as [d|x].
      * destruct (can_write e (clean_path g)); [right|left]; eauto.
      * left. eauto.
    + exists (with_printed (clean_banner g) st).
      split; [reflexivity|]. split; [reflexivity|].
      split; [reflexivity|].
      destruct (can_write e (clean_path g)) eqn:Hw.
      * right. eexists. split; [reflexivity|].
        apply (ScriptFacts.clean_exclusion_run e g input_file st data Hr Hm Hw).
      * left. eexists.
        apply (clean_exclusion_unwritable data Hr Hm Hw).
  - exists (with_printed (clean_banner g) st).
    split; [reflexivity|]. split; [reflexivity|]. split; [reflexivity|].
    left. exists x. apply clean_read_failure. assumption.
Qed.

End Cases.

Lemma append_differs (s t : string) : t <> "" -> (s ++ t)%string <> s.
Proof.
  intros N E. apply (f_equal String.length) in E.
  rewrite TextFacts.length_app in E. destruct t; [congruence|].
  simpl in E. lia.
Qed.

End CleanFacts.

(** X13: whatever the input, [clean] writes one file, at
    [<output>/<clean_data_file>], when it returns, and none when it
    raises; it only adds lines to the output, and without a marker file
    it leaves the list [markers] alone. *)
Theorem clean_writes_one_file (e : env) (g : globals) (input_file : string)
  (st st' : state) (o : outcome unit) :
  clean e g input_file st = (o, st') ->
  (exists more, stdout st' = stdout st ++ more)
  /\ (truthy (markers_arg (args g)) = false -> markers st' = markers st)
  /\ match o with
     | Ok _ => exists cleaned,
                 files st' = (clean_path g, cleaned) :: files st
                 /\ can_write e (clean_path g) = true
     | Raise _ => files st' = files st
     end.
Proof.
  intro H.
  destruct (CleanFacts.clean_shape e g input_file st)
    as (st1 & Hout & Hfiles & Hms & [(x & E)|(d & Hw & E)]);
    rewrite E in H; injection H as <- <-.
  - split; [eauto|]. split; assumption.
  - split; [|split].
    + exists (clean_banner g ++ clean_done g). simpl.
      rewrite Hout, app_assoc. reflexivity.
    + exact Hms.
    + exists d. simpl. rewrite Hfiles. auto.
Qed.

Lemma clean_writes_one_file_witness :
  (exists more, ["Cleaning data..."] = [] ++ more)
  /\ (truthy (Some "markers.txt") = false -> ["CellID"; "CD3"] = ["CD3"])
  /\ @nil (string * DataFrame) = [].
Proof.
  apply (clean_writes_one_file (Example.world ExecFailed)
           (Example.names (Some "markers.txt")) "exemplar3.csv"
           (Example.start ["CD3"])
           {| markers := ["CellID"; "CD3"]; stdout := ["Cleaning data..."];
              files := [] |}
           (Raise (KeyError ["CellID"]))).
  vm_compute. reflexivity.
Defined.

(** X14: [clean] passes on the exception of [pd.read_csv], before the
    list [markers] is touched; when the cleaned table cannot be written
    it raises the [OSError] of the failed write, saying what the system
    reports for the path of the table, in inclusion mode after the list
    [markers] was put in order; in both cases no file is written. *)
Theorem clean_failures (e : env) (g : globals) (input_file : string)
  (st : state) :
  (forall x,
      read_csv e input_file = Raise x ->
      clean e g input_file st = (Raise x, with_printed (clean_banner g) st))
  /\ (forall data,
        read_csv e input_file = Ok data ->
        truthy (markers_arg (args g)) = false ->
        can_write e (clean_path g) = false ->
        clean e g input_file st
        = (Raise (OSError (write_error e (clean_path g))),
           with_printed (clean_banner g) st))
  /\ (forall data,
        read_csv e input_file = Ok data ->
        truthy (markers_arg (args g)) = true ->
        (forall m, In m (normalized (markers st)) ->
                   In m (Pandas.columns data)) ->
        can_write e (clean_path g) = false ->
        clean e g input_file st
        = (Raise (OSError (write_error e (clean_path g))),
           with_markers (normalized (markers st))
             (with_printed (clean_banner g) st))).
Proof.
  split; [|split].
  - intros x Hr. apply CleanFacts.clean_read_failure. assumption.
  - intros data Hr Hm Hw.
    apply (CleanFacts.clean_exclusion_unwritable e g input_file st data);
      assumption.
  - intros data Hr Hm Hall Hw.
    rewrite (ScriptFacts.clean_inclusion_run e g input_file st data Hr Hm).
    rewrite (SelectionFacts.getitem_present data _ Hall), Hw. reflexivity.
Qed.

Lemma clean_failures_witness :
  let w := Scenario.world ExecFailed in
  let a := Scenario.arguments None None None "data/exemplar.csv" true in
  let b := Scenario.arguments None (Some "markers.txt") None
             "data/exemplar.csv" true in
  clean w (main_globals a "out" "auto") "nothing.csv" (Example.start [])
  = (Raise (ReadCsvError "nothing.csv"),
     with_printed ["Cleaning data..."] (Example.start []))
  /\ clean w (main_globals a "nodir" "auto") "data/exemplar.csv"
       (Example.start [])
     = (Raise (OSError
                 "Cannot save file into a non-existent directory: 'nodir'"),
        with_printed ["Cleaning data..."] (Example.start []))
  /\ clean w (main_globals b "nodir" "auto") "data/exemplar.csv"
       (Example.start ["CD3"])
     = (Raise (OSError
                 "Cannot save file into a non-existent directory: 'nodir'"),
        with_markers ["CellID"; "CD3"]
          (with_printed ["Cleaning data..."] (Example.start ["CD3"]))).
Proof.
  intros w a b. split; [|split].
  - apply (proj1 (clean_failures w (main_globals a "out" "auto")
                    "nothing.csv" (Example.start []))).
    reflexivity.
  - apply (proj1 (proj2 (clean_failures w (main_globals a "nodir" "auto")
                           "data/exemplar.csv" (Example.start [])))
             Example.table); reflexivity.
  - apply (proj2 (proj2 (clean_failures w (main_globals b "nodir" "auto")
                           "data/exemplar.csv" (Example.start ["CD3"])))
             Example.table); try reflexivity.
    simpl. intros m [<-|[<-|[]]]; auto 10.
Defined.

(** X15: when verbose, the last line [clean] prints after it wrote the
    table names the path of the table followed by a second [.csv]: the
    path in the message is never the path of the file written. *)
Theorem clean_message_path (e : env) (g : globals) (input_file : string)
  (st st' : state) :
  verbose (args g) = true ->
  clean e g input_file st = (Ok tt, st') ->
  exists earlier,
    stdout st'
    = earlier ++ [("Done. Cleaned data is in "
                   ++ (clean_path g ++ ".csv") ++ ".")%string]
    /\ (clean_path g ++ ".csv")%string <> clean_path g
    /\ exists cleaned, files st' = (clean_path g, cleaned) :: files st.
Proof.
  intros Hv H.
  destruct (CleanFacts.clean_shape e g input_file st)
    as (st1 & Hout & Hfiles & _ & [(x & E)|(d & Hw & E)]);
    rewrite E in H; [discriminate H|]. injection H as <-.
  exists (stdout st1). split; [|split].
  - simpl. unfold clean_done, clean_path. rewrite Hv.
    rewrite !ReFacts.sapp_assoc. reflexivity.
  - apply CleanFacts.append_differs. discriminate.
  - exists d. simpl. rewrite Hfiles. reflexivity.
Qed.

Lemma clean_message_path_witness :
  exists earlier,
    ["Cleaning data..."; "Done. Cleaned data is in ./exemplar-clean.csv.csv."]
    = earlier ++ ["Done. Cleaned data is in ./exemplar-clean.csv.csv."]
    /\ "./exemplar-clean.csv.csv" <> "./exemplar-clean.csv"
    /\ exists cleaned,
         [("./exemplar-clean.csv", [("CD3", Example.cells)])]
         = ("./exemplar-clean.csv", cleaned) :: [].
Proof.
  apply (clean_message_path (Example.world ExecFailed) (Example.names None)
           "exemplar3.csv" (Example.start [])
           {| markers := [];
              stdout := ["Cleaning data...";
                         "Done. Cleaned data is in ./exemplar-clean.csv.csv."];
              files := [("./exemplar-clean.csv", [("CD3", Example.cells)])] |}).
  - reflexivity.
  - vm_compute. reflexivity.
Defined.

(* ------------------------------------------------------------------ *)
(** ** The script from end to end *)

Module MainFacts.


Lemma main_steps (e : env) (a : Args) (st st1 : state) (out t : string) :
  output_dir a st = (Ok out, st) ->
  load_markers e a st = (Ok tt, st1) ->
  assess_transform e a st1 = (Ok t, st1) ->
  main e a st
  = (clean e (main_globals a out t) (input a) ;;;
     runFastPG e (main_globals a out t)) st1.
Proof.
  intros Ho Hl Ht. unfold main.
  rewrite (ScriptFacts.bind_ok _ _ _ _ _ Ho).
  rewrite (ScriptFacts.bind_ok _ _ _ _ _ Hl).
  rewrite (ScriptFacts.bind_ok _ _ _ _ _ Ht).
  reflexivity.
Qed.



End MainFacts.





(** X17: the script stops at the first failure.  An empty output
    directory raises [IndexError] at once; a marker file that cannot be
    opened raises [OSError] before anything else is read; a failure of
    the transform mode comes before the table is read; and when [clean]
    raises, the script raises the same exception, no file is written and
    the child process is not started. *)
Theorem main_stops_early (e : env) (a : Args) (st : state) :
  (output_arg a = Some "" -> main e a st = (Raise IndexError, st))
  /\ (forall out f,
        output_dir a st = (Ok out, st) ->
        markers_arg a = Some f ->
        open_read e f = None ->
        main e a st = (Raise (OSError f), st))
  /\ (forall out st1 x,
        output_dir a st = (Ok out, st) ->
        load_markers e a st = (Ok tt, st1) ->
        assess_transform e a st1 = (Raise x, st1) ->
        main e a st = (Raise x, st1))
  /\ (forall out st1 t x st2,
        output_dir a st = (Ok out, st) ->
        load_markers e a st = (Ok tt, st1) ->
        assess_transform e a st1 = (Ok t, st1) ->
        clean e (main_globals a out t) (input a) st1 = (Raise x, st2) ->
        main e a st = (Raise x, st2)
        /\ files st2 = files st1
        /\ stdout st2 = stdout st1 ++ clean_banner (main_globals a out t)).
Proof.
  split; [|split; [|split]].
  - intro H. unfold main, output_dir. rewrite H. reflexivity.
  - intros out f Ho Hm Hopen. unfold main.
    rewrite (ScriptFacts.bind_ok _ _ _ _ _ Ho).
    apply ScriptFacts.bind_raise.
    unfold load_markers. rewrite Hm.
    apply ScriptFacts.bind_raise.
    unfold get_markers, open_file, bind. rewrite Hopen. reflexivity.
  - intros out st1 x Ho Hl Ht. unfold main.
    rewrite (ScriptFacts.bind_ok _ _ _ _ _ Ho).
    rewrite (ScriptFacts.bind_ok _ _ _ _ _ Hl).
    apply ScriptFacts.bind_raise. assumption.
  - intros out st1 t x st2 Ho Hl Ht Hc.
    rewrite (MainFacts.main_steps e a st st1 out t Ho Hl Ht).
    rewrite (ScriptFacts.bind_raise _ _ _ _ _ Hc).
    split; [reflexivity|].
    destruct (CleanFacts.clean_shape e (main_globals a out t) (input a) st1)
      as (s1 & Hout & Hfiles & _ & [(y & E)|(d & _ & E)]);
      rewrite E in Hc; [|discriminate Hc].
    injection Hc as _ <-. auto.
Qed.

Lemma main_stops_early_witness :
  let w := Scenario.world (Exited 0 "0.85") in
  let s := Example.start [] in
  main w (Scenario.arguments (Some "") None None "data/exemplar.csv" true) s
  = (Raise IndexError, s)
  /\ main w (Scenario.arguments None (Some "absent.txt") None
               "data/exemplar.csv" true) s
     = (Raise (OSError "absent.txt"), s)
  /\ main w (Scenario.arguments None None (Some "absent.yml")
               "data/exemplar.csv" true) s
     = (Raise (OSError "absent.yml"), s)
  /\ main w (Scenario.arguments (Some "out") None None "nothing.csv" true) s
     = (Raise (ReadCsvError "nothing.csv"),
        with_printed ["Cleaning data..."] s).
Proof.
  intros w s. split; [|split; [|split]].
  - destruct (main_stops_early w
                (Scenario.arguments (Some "") None None
                   "data/exemplar.csv" true) s) as (R & _).
    apply R. reflexivity.
  - destruct (main_stops_early w
                (Scenario.arguments None (Some "absent.txt") None
                   "data/exemplar.csv" true) s) as (_ & R & _).
    apply (R "." "absent.txt"); reflexivity.
  - destruct (main_stops_early w
                (Scenario.arguments None None (Some "absent.yml")
                   "data/exemplar.csv" true) s) as (_ & _ & R & _).
    apply (R "." s (OSError "absent.yml")); reflexivity.
  - destruct (main_stops_early w
                (Scenario.arguments (Some "out") None None
                   "nothing.csv" true) s) as (_ & _ & _ & R).
    apply (R "out" s "auto" (ReadCsvError "nothing.csv")
             (with_printed ["Cleaning data..."] s)); reflexivity.
Defined.
